(** * QTextPad: document state, undo coordination and the load pipeline

    A shallow embedding of [QTextPadWindow] (src/qtextpadwindow.cpp): the
    setters that keep the status bar and the menus in step with the document,
    the undo stack that mixes text edits with encoding and line-ending
    changes, and the load, save and prompt protocols.

    The window is a record of the member variables the code reads and writes.
    Every method is a computation in a small state monad over a [World]: the
    window, the files on disk, the answers the user is going to give to the
    dialogs, and a chronological log of the calls and dialogs that happened,
    which is what the statements about ordering and about "no dialog is
    shown" are made of.  The Qt and KDE classes the window talks to
    (KCharsets, the file detector, the syntax repository, text codecs) are
    the fields of the class [Collaborators]. *)

From Stdlib Require Import String Ascii List ZArith Bool Lia.
From Stdlib.Strings Require Import Byte.
From Stdlib Require Import DecimalString.
Import ListNotations.
Local Open Scope string_scope.
Local Open Scope Z_scope.

(** ** Constants (qtextpadwindow.cpp, lines 50-52) *)

Definition LARGE_FILE_SIZE : Z := 10 * 1024 * 1024.
Definition DETECTION_SIZE : nat := 1 * 1024.
Definition DECODE_BLOCK_SIZE : nat := 16 * 1024.

(** ** Values *)

(** [QTextPadWindow::LineEndingMode]. *)
Inductive LineEndingMode : Type := CROnly | LFOnly | CRLF.

Definition LineEndingMode_eqb (a b : LineEndingMode) : bool :=
  match a, b with
  | CROnly, CROnly | LFOnly, LFOnly | CRLF, CRLF => true
  | _, _ => false
  end.

(** [KSyntaxHighlighting::Definition]: a value that is either invalid (what a
    default-constructed definition and a failed lookup are) or names a
    syntax of the repository. *)
Inductive KDefinition : Type :=
| InvalidDefinition
| SyntaxDefinition (name : string).

Definition isValid (d : KDefinition) : bool :=
  match d with
  | InvalidDefinition => false
  | SyntaxDefinition _ => true
  end.

Definition translatedName (d : KDefinition) : string :=
  match d with
  | InvalidDefinition => ""
  | SyntaxDefinition n => n
  end.

Definition KDefinition_eqb (a b : KDefinition) : bool :=
  match a, b with
  | InvalidDefinition, InvalidDefinition => true
  | SyntaxDefinition n, SyntaxDefinition m => String.eqb n m
  | _, _ => false
  end.

(** Modelled from the spec: [SyntaxTextEdit::nullSyntax] of syntaxtextedit.h,
    which is not among the sources.  The spec calls it the syntax "none"
    (plain text): the invalid definition. *)
Definition nullSyntax : KDefinition := InvalidDefinition.

(** [QMessageBox::StandardButton], the three the window uses. *)
Inductive StandardButton : Type := Yes | No | Cancel.

Definition StandardButton_eqb (a b : StandardButton) : bool :=
  match a, b with
  | Yes, Yes | No, No | Cancel, Cancel => true
  | _, _ => false
  end.

(** What [FileDetection::detect] returns (ftdetect.h), over the type of
    codecs. *)
Record FileDetection (Codec : Type) : Type := {
  lineEndings : LineEndingMode;
  textCodec : Codec;
  bomOffset : nat
}.
Arguments lineEndings {Codec} _.
Arguments textCodec {Codec} _.
Arguments bomOffset {Codec} _.

(** A file on disk as [QFile] shows it: the size the file system reports and
    the bytes [read] delivers. *)
Record QFileData : Type := {
  file_size : Z;
  file_data : list byte
}.

Definition FileSystem : Type := string -> option QFileData.

(** [QFile::read] of at most [n] bytes at position [pos]. *)
Definition QFile_read (f : QFileData) (pos n : nat) : list byte :=
  firstn n (skipn pos (file_data f)).

(** ** The editor widget

    [SyntaxTextEdit] (a [QPlainTextEdit]) and its [QTextDocument], as far as
    the window uses them: the text, the syntax, and the document's own undo
    and redo stacks, each entry holding the text before and after one
    edit. *)
Record SyntaxTextEdit : Type := {
  plainText : string;
  syntax : KDefinition;
  documentUndo : list (string * string);
  documentRedo : list (string * string)
}.

(** [QPlainTextEdit::clear]: the text and the undo history go. *)
Definition editor_clear (e : SyntaxTextEdit) : SyntaxTextEdit :=
  {| plainText := ""; syntax := syntax e; documentUndo := []; documentRedo := [] |}.

Definition editor_setSyntax (d : KDefinition) (e : SyntaxTextEdit) : SyntaxTextEdit :=
  {| plainText := plainText e; syntax := d;
     documentUndo := documentUndo e; documentRedo := documentRedo e |}.

(** [QPlainTextEdit::setPlainText]: replaces the whole content and resets
    the undo history; no undo command is recorded for it. *)
Definition editor_setPlainText (t : string) (e : SyntaxTextEdit) : SyntaxTextEdit :=
  {| plainText := t; syntax := syntax e; documentUndo := []; documentRedo := [] |}.

(** [QTextDocument::clearUndoRedoStacks]. *)
Definition document_clearUndoRedoStacks (e : SyntaxTextEdit) : SyntaxTextEdit :=
  {| plainText := plainText e; syntax := syntax e; documentUndo := []; documentRedo := [] |}.

(** One edit typed by the user: recorded on the document's undo stack, the
    redo stack is dropped. *)
Definition document_edit (t : string) (e : SyntaxTextEdit) : SyntaxTextEdit :=
  {| plainText := t; syntax := syntax e;
     documentUndo := (plainText e, t) :: documentUndo e; documentRedo := [] |}.

(** [QTextDocument::undo] and [QTextDocument::redo]. *)
Definition document_undo (e : SyntaxTextEdit) : SyntaxTextEdit :=
  match documentUndo e with
  | [] => e
  | (before, after) :: rest =>
      {| plainText := before; syntax := syntax e;
         documentUndo := rest; documentRedo := (before, after) :: documentRedo e |}
  end.

Definition document_redo (e : SyntaxTextEdit) : SyntaxTextEdit :=
  match documentRedo e with
  | [] => e
  | (before, after) :: rest =>
      {| plainText := after; syntax := syntax e;
         documentUndo := (before, after) :: documentUndo e; documentRedo := rest |}
  end.

(** ** The undo stack *)

(** Modelled from the spec: the command classes of undocommands.h, which is
    not among the sources.  The spec has two kinds of command: the opaque
    text-edit command, which delegates to the buffer's own undo and redo, and
    the metadata commands, which carry the old and the new encoding, or the
    old and the new line-ending mode. *)
Inductive QUndoCommand : Type :=
| TextEditorUndoCommand
| ChangeEncodingCommand (oldEncoding newEncoding : string)
| ChangeLineEndingCommand (oldMode newMode : LineEndingMode).

(** [QUndoStack], without macros and without an undo limit (the window uses
    neither): the commands, the index of the next command to redo, and the
    clean index, which Qt sets to -1 when the clean state is lost. *)
Record QUndoStack : Type := {
  command_list : list QUndoCommand;
  index : nat;
  clean_index : Z
}.

Definition isClean (s : QUndoStack) : bool :=
  clean_index s =? Z.of_nat (index s).

(** ** The window *)

(** The members of [QTextPadWindow] that the modelled methods touch.  A
    label or button is its text, an exclusive [QActionGroup] is the data of
    its checked action, [m_reloadAction] is its enabled flag. *)
Record QTextPadWindow : Type := {
  m_editor : SyntaxTextEdit;
  m_undoStack : QUndoStack;
  m_textEncoding : string;
  m_lineEndingMode : LineEndingMode;
  m_openFilename : string;
  m_documentTitle : string;
  m_syntaxButton : string;
  m_encodingButton : string;
  m_crlfLabel : string;
  m_syntaxActions : option KDefinition;
  m_encodingActions : option string;
  m_lineEndingActions : option LineEndingMode;
  m_reloadAction : bool;
  windowTitle : string
}.

Definition set_m_editor (v : SyntaxTextEdit) (win : QTextPadWindow) : QTextPadWindow :=
  {|
     m_editor := v; m_undoStack := m_undoStack win; m_textEncoding := m_textEncoding win;
     m_lineEndingMode := m_lineEndingMode win; m_openFilename := m_openFilename win; m_documentTitle := m_documentTitle win;
     m_syntaxButton := m_syntaxButton win; m_encodingButton := m_encodingButton win; m_crlfLabel := m_crlfLabel win;
     m_syntaxActions := m_syntaxActions win; m_encodingActions := m_encodingActions win; m_lineEndingActions := m_lineEndingActions win;
     m_reloadAction := m_reloadAction win; windowTitle := windowTitle win |}.

Definition set_m_undoStack (v : QUndoStack) (win : QTextPadWindow) : QTextPadWindow :=
  {|
     m_editor := m_editor win; m_undoStack := v; m_textEncoding := m_textEncoding win;
     m_lineEndingMode := m_lineEndingMode win; m_openFilename := m_openFilename win; m_documentTitle := m_documentTitle win;
     m_syntaxButton := m_syntaxButton win; m_encodingButton := m_encodingButton win; m_crlfLabel := m_crlfLabel win;
     m_syntaxActions := m_syntaxActions win; m_encodingActions := m_encodingActions win; m_lineEndingActions := m_lineEndingActions win;
     m_reloadAction := m_reloadAction win; windowTitle := windowTitle win |}.

Definition set_m_textEncoding (v : string) (win : QTextPadWindow) : QTextPadWindow :=
  {|
     m_editor := m_editor win; m_undoStack := m_undoStack win; m_textEncoding := v;
     m_lineEndingMode := m_lineEndingMode win; m_openFilename := m_openFilename win; m_documentTitle := m_documentTitle win;
     m_syntaxButton := m_syntaxButton win; m_encodingButton := m_encodingButton win; m_crlfLabel := m_crlfLabel win;
     m_syntaxActions := m_syntaxActions win; m_encodingActions := m_encodingActions win; m_lineEndingActions := m_lineEndingActions win;
     m_reloadAction := m_reloadAction win; windowTitle := windowTitle win |}.

Definition set_m_lineEndingMode (v : LineEndingMode) (win : QTextPadWindow) : QTextPadWindow :=
  {|
     m_editor := m_editor win; m_undoStack := m_undoStack win; m_textEncoding := m_textEncoding win;
     m_lineEndingMode := v; m_openFilename := m_openFilename win; m_documentTitle := m_documentTitle win;
     m_syntaxButton := m_syntaxButton win; m_encodingButton := m_encodingButton win; m_crlfLabel := m_crlfLabel win;
     m_syntaxActions := m_syntaxActions win; m_encodingActions := m_encodingActions win; m_lineEndingActions := m_lineEndingActions win;
     m_reloadAction := m_reloadAction win; windowTitle := windowTitle win |}.

Definition set_m_openFilename (v : string) (win : QTextPadWindow) : QTextPadWindow :=
  {|
     m_editor := m_editor win; m_undoStack := m_undoStack win; m_textEncoding := m_textEncoding win;
     m_lineEndingMode := m_lineEndingMode win; m_openFilename := v; m_documentTitle := m_documentTitle win;
     m_syntaxButton := m_syntaxButton win; m_encodingButton := m_encodingButton win; m_crlfLabel := m_crlfLabel win;
     m_syntaxActions := m_syntaxActions win; m_encodingActions := m_encodingActions win; m_lineEndingActions := m_lineEndingActions win;
     m_reloadAction := m_reloadAction win; windowTitle := windowTitle win |}.

Definition set_m_documentTitle (v : string) (win : QTextPadWindow) : QTextPadWindow :=
  {|
     m_editor := m_editor win; m_undoStack := m_undoStack win; m_textEncoding := m_textEncoding win;
     m_lineEndingMode := m_lineEndingMode win; m_openFilename := m_openFilename win; m_documentTitle := v;
     m_syntaxButton := m_syntaxButton win; m_encodingButton := m_encodingButton win; m_crlfLabel := m_crlfLabel win;
     m_syntaxActions := m_syntaxActions win; m_encodingActions := m_encodingActions win; m_lineEndingActions := m_lineEndingActions win;
     m_reloadAction := m_reloadAction win; windowTitle := windowTitle win |}.

Definition set_m_syntaxButton (v : string) (win : QTextPadWindow) : QTextPadWindow :=
  {|
     m_editor := m_editor win; m_undoStack := m_undoStack win; m_textEncoding := m_textEncoding win;
     m_lineEndingMode := m_lineEndingMode win; m_openFilename := m_openFilename win; m_documentTitle := m_documentTitle win;
     m_syntaxButton := v; m_encodingButton := m_encodingButton win; m_crlfLabel := m_crlfLabel win;
     m_syntaxActions := m_syntaxActions win; m_encodingActions := m_encodingActions win; m_lineEndingActions := m_lineEndingActions win;
     m_reloadAction := m_reloadAction win; windowTitle := windowTitle win |}.

Definition set_m_encodingButton (v : string) (win : QTextPadWindow) : QTextPadWindow :=
  {|
     m_editor := m_editor win; m_undoStack := m_undoStack win; m_textEncoding := m_textEncoding win;
     m_lineEndingMode := m_lineEndingMode win; m_openFilename := m_openFilename win; m_documentTitle := m_documentTitle win;
     m_syntaxButton := m_syntaxButton win; m_encodingButton := v; m_crlfLabel := m_crlfLabel win;
     m_syntaxActions := m_syntaxActions win; m_encodingActions := m_encodingActions win; m_lineEndingActions := m_lineEndingActions win;
     m_reloadAction := m_reloadAction win; windowTitle := windowTitle win |}.

Definition set_m_crlfLabel (v : string) (win : QTextPadWindow) : QTextPadWindow :=
  {|
     m_editor := m_editor win; m_undoStack := m_undoStack win; m_textEncoding := m_textEncoding win;
     m_lineEndingMode := m_lineEndingMode win; m_openFilename := m_openFilename win; m_documentTitle := m_documentTitle win;
     m_syntaxButton := m_syntaxButton win; m_encodingButton := m_encodingButton win; m_crlfLabel := v;
     m_syntaxActions := m_syntaxActions win; m_encodingActions := m_encodingActions win; m_lineEndingActions := m_lineEndingActions win;
     m_reloadAction := m_reloadAction win; windowTitle := windowTitle win |}.

Definition set_m_syntaxActions (v : option KDefinition) (win : QTextPadWindow) : QTextPadWindow :=
  {|
     m_editor := m_editor win; m_undoStack := m_undoStack win; m_textEncoding := m_textEncoding win;
     m_lineEndingMode := m_lineEndingMode win; m_openFilename := m_openFilename win; m_documentTitle := m_documentTitle win;
     m_syntaxButton := m_syntaxButton win; m_encodingButton := m_encodingButton win; m_crlfLabel := m_crlfLabel win;
     m_syntaxActions := v; m_encodingActions := m_encodingActions win; m_lineEndingActions := m_lineEndingActions win;
     m_reloadAction := m_reloadAction win; windowTitle := windowTitle win |}.

Definition set_m_encodingActions (v : option string) (win : QTextPadWindow) : QTextPadWindow :=
  {|
     m_editor := m_editor win; m_undoStack := m_undoStack win; m_textEncoding := m_textEncoding win;
     m_lineEndingMode := m_lineEndingMode win; m_openFilename := m_openFilename win; m_documentTitle := m_documentTitle win;
     m_syntaxButton := m_syntaxButton win; m_encodingButton := m_encodingButton win; m_crlfLabel := m_crlfLabel win;
     m_syntaxActions := m_syntaxActions win; m_encodingActions := v; m_lineEndingActions := m_lineEndingActions win;
     m_reloadAction := m_reloadAction win; windowTitle := windowTitle win |}.

Definition set_m_lineEndingActions (v : option LineEndingMode) (win : QTextPadWindow) : QTextPadWindow :=
  {|
     m_editor := m_editor win; m_undoStack := m_undoStack win; m_textEncoding := m_textEncoding win;
     m_lineEndingMode := m_lineEndingMode win; m_openFilename := m_openFilename win; m_documentTitle := m_documentTitle win;
     m_syntaxButton := m_syntaxButton win; m_encodingButton := m_encodingButton win; m_crlfLabel := m_crlfLabel win;
     m_syntaxActions := m_syntaxActions win; m_encodingActions := m_encodingActions win; m_lineEndingActions := v;
     m_reloadAction := m_reloadAction win; windowTitle := windowTitle win |}.

Definition set_m_reloadAction (v : bool) (win : QTextPadWindow) : QTextPadWindow :=
  {|
     m_editor := m_editor win; m_undoStack := m_undoStack win; m_textEncoding := m_textEncoding win;
     m_lineEndingMode := m_lineEndingMode win; m_openFilename := m_openFilename win; m_documentTitle := m_documentTitle win;
     m_syntaxButton := m_syntaxButton win; m_encodingButton := m_encodingButton win; m_crlfLabel := m_crlfLabel win;
     m_syntaxActions := m_syntaxActions win; m_encodingActions := m_encodingActions win; m_lineEndingActions := m_lineEndingActions win;
     m_reloadAction := v; windowTitle := windowTitle win |}.

Definition set_windowTitle (v : string) (win : QTextPadWindow) : QTextPadWindow :=
  {|
     m_editor := m_editor win; m_undoStack := m_undoStack win; m_textEncoding := m_textEncoding win;
     m_lineEndingMode := m_lineEndingMode win; m_openFilename := m_openFilename win; m_documentTitle := m_documentTitle win;
     m_syntaxButton := m_syntaxButton win; m_encodingButton := m_encodingButton win; m_crlfLabel := m_crlfLabel win;
     m_syntaxActions := m_syntaxActions win; m_encodingActions := m_encodingActions win; m_lineEndingActions := m_lineEndingActions win;
     m_reloadAction := m_reloadAction win; windowTitle := v |}.

(** ** The world around the window *)

(** What happens during a call, in the order it happens: the dialogs shown,
    the log lines written, and the calls whose order the specification talks
    about. *)
Inductive Event : Type :=
| MessageBox_critical (text : string)
| MessageBox_question (text : string) (buttons : list StandardButton)
| FileDialog_getSaveFileName (caption : string)
| FileDialog_getOpenFileName (caption dir : string)
| Log_qWarning (msg : string)
| Log_qDebug (msg : string)
| Call_setSyntax (d : KDefinition)
| Call_setEncoding (codecName : string)
| Call_setLineEndingMode (mode : LineEndingMode)
| Call_saveDocument
| Editor_clear
| Editor_setPlainText (text : string)
| Document_clearUndoRedoStacks
| UndoStack_push (cmd : QUndoCommand)
| UndoStack_clear
| UndoStack_setClean
| Lookup_definitionForFileMagic (filename : string)
| Lookup_definitionForFileName (filename : string)
| Settings_setWindowSize.

(** [answers] and [chosenPaths] are what the user is going to click in the
    message boxes and pick in the file dialogs, in order. *)
Record World : Type := {
  window : QTextPadWindow;
  files : FileSystem;
  answers : list StandardButton;
  chosenPaths : list string;
  trace : list Event
}.

Definition set_window (v : QTextPadWindow) (w : World) : World :=
  {| window := v; files := files w; answers := answers w;
     chosenPaths := chosenPaths w; trace := trace w |}.
Definition set_answers (v : list StandardButton) (w : World) : World :=
  {| window := window w; files := files w; answers := v;
     chosenPaths := chosenPaths w; trace := trace w |}.
Definition set_chosenPaths (v : list string) (w : World) : World :=
  {| window := window w; files := files w; answers := answers w;
     chosenPaths := v; trace := trace w |}.
Definition set_trace (v : list Event) (w : World) : World :=
  {| window := window w; files := files w; answers := answers w;
     chosenPaths := chosenPaths w; trace := v |}.

(** The events that [w'] has and its ancestor [w] had not yet. *)
Definition events_since (w w' : World) : list Event :=
  skipn (length (trace w)) (trace w').

(** ** The state monad of the methods *)

Definition M (A : Type) : Type := World -> A * World.

Definition ret {A : Type} (a : A) : M A := fun w => (a, w).

Definition bind {A B : Type} (c : M A) (k : A -> M B) : M B :=
  fun w => let (a, w') := c w in k a w'.

Declare Scope window_scope.
Delimit Scope window_scope with window.
Notation "x <- c ;; k" := (bind c (fun x => k))
  (at level 61, c at next level, right associativity) : window_scope.
Notation "c ;; k" := (bind c (fun _ => k))
  (at level 61, right associativity) : window_scope.
Local Open Scope window_scope.

Definition getWindow : M QTextPadWindow := fun w => (window w, w).
Definition getFiles : M FileSystem := fun w => (files w, w).
Definition modifyWindow (f : QTextPadWindow -> QTextPadWindow) : M unit :=
  fun w => (tt, set_window (f (window w)) w).
Definition modifyEditor (f : SyntaxTextEdit -> SyntaxTextEdit) : M unit :=
  modifyWindow (fun win => set_m_editor (f (m_editor win)) win).
Definition emit (e : Event) : M unit :=
  fun w => (tt, set_trace (trace w ++ [e]) w).

(** The button a message box returns when it is dismissed without a choice:
    Cancel when it is offered, No otherwise. *)
Definition escapeButton (buttons : list StandardButton) : StandardButton :=
  if existsb (StandardButton_eqb Cancel) buttons then Cancel else No.

(** The answer the next message box with these buttons is going to get. *)
Definition nextAnswer (buttons : list StandardButton) (w : World) : StandardButton :=
  match answers w with
  | [] => escapeButton buttons
  | b :: _ => b
  end.

(** [QMessageBox::question]. *)
Definition question (text : string) (buttons : list StandardButton) : M StandardButton :=
  emit (MessageBox_question text buttons) ;;
  fun w => (nextAnswer buttons w, set_answers (tl (answers w)) w).

(** [QMessageBox::critical]. *)
Definition critical (text : string) : M unit :=
  emit (MessageBox_critical text).

(** The path the next file dialog returns; empty when it is cancelled. *)
Definition nextPath : M string :=
  fun w => (hd "" (chosenPaths w), set_chosenPaths (tl (chosenPaths w)) w).

Definition getSaveFileName (caption : string) : M string :=
  emit (FileDialog_getSaveFileName caption) ;; nextPath.

Definition getOpenFileName (caption dir : string) : M string :=
  emit (FileDialog_getOpenFileName caption dir) ;; nextPath.

(** [QString::isEmpty]. *)
Definition isEmpty (s : string) : bool := String.eqb s "".

(** [QFileInfo::fileName]: the part of the path after its last slash. *)
Fixpoint hasSlash (s : string) : bool :=
  match s with
  | EmptyString => false
  | String c rest => Ascii.eqb c "/" || hasSlash rest
  end.

Fixpoint fileName (path : string) : string :=
  match path with
  | EmptyString => EmptyString
  | String c rest =>
      if hasSlash rest then fileName rest
      else if Ascii.eqb c "/" then rest else path
  end.

(** The n-dash of the window title, U+2013 in UTF-8. *)
Definition ndash : string :=
  String (ascii_of_nat 226) (String (ascii_of_nat 128) (String (ascii_of_nat 147) "")).

(** ** The collaborators

    The classes the window calls and does not define.  [codecForName] is
    [KCharsets::codecForName]: it always returns a codec and tells through
    the flag whether the name was known.  [definitionForFileMagic] looks
    into the file on disk, [definitionForFileName] matches the name
    only.  [definitions] are the syntax repository's definitions that are
    not hidden, [isWin32] is the platform the window was built for. *)
Class Collaborators : Type := {
  QTextCodec : Type;
  QTextDecoder : Type;
  codec_name : QTextCodec -> string;
  makeDecoder : QTextCodec -> QTextDecoder;
  toUnicode : QTextDecoder -> list byte -> string * QTextDecoder;
  codecForName : string -> QTextCodec * bool;
  encodingsByScript : list (list string);
  detect : list byte -> string -> FileDetection QTextCodec;
  definitionForFileMagic : FileSystem -> string -> KDefinition;
  definitionForFileName : string -> KDefinition;
  definitions : list KDefinition;
  absolutePath : string -> string;
  isWin32 : bool
}.

Section Window.

Context `{Collaborators}.

(** ** Setters (qtextpadwindow.cpp, lines 397-495) *)

(** The data of the actions of the three exclusive action groups, as the
    constructor and the populate methods fill them (lines 286-299,
    881-909, 935-962); sorting the scripts does not change which names
    are there. *)
Definition syntaxActions : list KDefinition := nullSyntax :: definitions.
Definition encodingActions : list string := flat_map (@tl string) encodingsByScript.
Definition lineEndingActions : list LineEndingMode := [CROnly; LFOnly; CRLF].

Definition setSyntax (syntax : KDefinition) : M unit :=
  emit (Call_setSyntax syntax) ;;
  modifyEditor (editor_setSyntax syntax) ;;
  (if isValid syntax
   then modifyWindow (set_m_syntaxButton (translatedName syntax))
   else modifyWindow (set_m_syntaxButton "Plain Text")) ;;
  match find (fun actionDef => KDefinition_eqb actionDef syntax) syntaxActions with
  | Some actionDef => modifyWindow (set_m_syntaxActions (Some actionDef))
  | None => ret tt
  end.

Definition setEncoding (codecName : string) : M unit :=
  emit (Call_setEncoding codecName) ;;
  modifyWindow (set_m_textEncoding codecName) ;;
  modifyWindow (set_m_encodingActions None) ;;
  (let (_, ok) := codecForName codecName in
   if negb ok then
     emit (Log_qWarning "Invalid codec selected") ;;
     modifyWindow (set_m_encodingButton ("Invalid (" ++ codecName ++ ")"))
   else
     modifyWindow (set_m_encodingButton codecName)) ;;
  match find (fun actionCodec => String.eqb actionCodec codecName) encodingActions with
  | Some actionCodec => modifyWindow (set_m_encodingActions (Some actionCodec))
  | None => ret tt
  end.

Definition setLineEndingMode (mode : LineEndingMode) : M unit :=
  emit (Call_setLineEndingMode mode) ;;
  modifyWindow (set_m_lineEndingMode mode) ;;
  (match mode with
   | CROnly => modifyWindow (set_m_crlfLabel "CR")
   | LFOnly => modifyWindow (set_m_crlfLabel "LF")
   | CRLF => modifyWindow (set_m_crlfLabel "CRLF")
   end) ;;
  match find (fun data => LineEndingMode_eqb data mode) lineEndingActions with
  | Some data => modifyWindow (set_m_lineEndingActions (Some data))
  | None => ret tt
  end.

(** ** Modified flag and title (lines 572-575, 727-734) *)

Definition isDocumentModified (win : QTextPadWindow) : bool :=
  negb (isClean (m_undoStack win)).

Definition updateTitle : M unit :=
  win <- getWindow ;;
  let title := m_documentTitle win ++ " " ++ ndash ++ " qtextpad" in
  let title := if isDocumentModified win then "* " ++ title else title in
  modifyWindow (set_windowTitle title).

(** ** Commands and the undo stack *)

(** Modelled from the spec: [redo] and [undo] of the commands of
    undocommands.h.  Executing a metadata command is calling the setter with
    the new value, undoing it is calling the setter with the old one; a text
    command hands over to the buffer's own redo and undo. *)
Definition command_redo (cmd : QUndoCommand) : M unit :=
  match cmd with
  | TextEditorUndoCommand => modifyEditor document_redo
  | ChangeEncodingCommand _ newEncoding => setEncoding newEncoding
  | ChangeLineEndingCommand _ newMode => setLineEndingMode newMode
  end.

Definition command_undo (cmd : QUndoCommand) : M unit :=
  match cmd with
  | TextEditorUndoCommand => modifyEditor document_undo
  | ChangeEncodingCommand oldEncoding _ => setEncoding oldEncoding
  | ChangeLineEndingCommand oldMode _ => setLineEndingMode oldMode
  end.

Definition modifyStack (f : QUndoStack -> QUndoStack) : M unit :=
  modifyWindow (fun win => set_m_undoStack (f (m_undoStack win)) win).

(** The constructor connects [QUndoStack::cleanChanged] to [updateTitle]
    (line 389): whenever an operation of the stack changes whether it is
    clean, the title is refreshed. *)
Definition cleanChanged (was_clean : bool) : M unit :=
  win <- getWindow ;;
  if Bool.eqb (isClean (m_undoStack win)) was_clean then ret tt else updateTitle.

(** [QUndoStack::push]: executes the command, drops the commands after the
    index (and the clean index with them, when it pointed there), appends
    the command and advances the index.  The commands keep the default id,
    so none is merged into its predecessor. *)
Definition QUndoStack_push (cmd : QUndoCommand) : M unit :=
  emit (UndoStack_push cmd) ;;
  command_redo cmd ;;
  win <- getWindow ;;
  let s := m_undoStack win in
  let clean := if Z.of_nat (index s) <? clean_index s then -1 else clean_index s in
  let was_clean := clean =? Z.of_nat (index s) in
  modifyStack (fun _ =>
    {| command_list := firstn (index s) (command_list s) ++ [cmd];
       index := S (index s);
       clean_index := clean |}) ;;
  cleanChanged was_clean.

(** [QUndoStack::clear]: nothing to do on an empty stack; otherwise the
    commands go and both indices return to 0. *)
Definition QUndoStack_clear : M unit :=
  emit UndoStack_clear ;;
  win <- getWindow ;;
  match command_list (m_undoStack win) with
  | [] => ret tt
  | _ :: _ =>
      let was_clean := isClean (m_undoStack win) in
      modifyStack (fun _ => {| command_list := []; index := 0; clean_index := 0 |}) ;;
      cleanChanged was_clean
  end.

(** [QUndoStack::setClean]. *)
Definition QUndoStack_setClean : M unit :=
  emit UndoStack_setClean ;;
  win <- getWindow ;;
  let s := m_undoStack win in
  modifyStack (fun _ =>
    {| command_list := command_list s; index := index s;
       clean_index := Z.of_nat (index s) |}) ;;
  cleanChanged (isClean s).

(** [QUndoStack::undo] and [QUndoStack::redo], which the Edit menu and the
    editor's [parentUndo] and [parentRedo] signals are connected to (lines
    114-115, 189-190). *)
Definition QUndoStack_undo : M unit :=
  win <- getWindow ;;
  let s := m_undoStack win in
  match index s with
  | O => ret tt
  | S idx =>
      match nth_error (command_list s) idx with
      | None => ret tt
      | Some cmd =>
          command_undo cmd ;;
          win' <- getWindow ;;
          let s' := m_undoStack win' in
          modifyStack (fun _ =>
            {| command_list := command_list s'; index := idx;
               clean_index := clean_index s' |}) ;;
          cleanChanged (isClean s')
      end
  end.

Definition QUndoStack_redo : M unit :=
  win <- getWindow ;;
  let s := m_undoStack win in
  match nth_error (command_list s) (index s) with
  | None => ret tt
  | Some cmd =>
      command_redo cmd ;;
      win' <- getWindow ;;
      let s' := m_undoStack win' in
      modifyStack (fun _ =>
        {| command_list := command_list s'; index := S (index s');
           clean_index := clean_index s' |}) ;;
      cleanChanged (isClean s')
  end.

(** Lines 577-580. *)
Definition addUndoCommand (command : QUndoCommand) : M unit :=
  QUndoStack_push command.

(** The user changes the text in the editor: the document records the edit
    and emits [undoCommandAdded], which the constructor connects to
    [addUndoCommand] of a new text command (lines 112-113). *)
Definition editText (text : string) : M unit :=
  modifyEditor (document_edit text) ;;
  addUndoCommand TextEditorUndoCommand.

(** ** User-triggered changes (lines 741-754, 826-846) *)

Definition changeEncoding (encoding : string) : M unit :=
  win <- getWindow ;;
  if isEmpty (m_openFilename win) then
    setEncoding encoding
  else
    let command := ChangeEncodingCommand (m_textEncoding win) encoding in
    addUndoCommand command.

Definition changeLineEndingMode (mode : LineEndingMode) : M unit :=
  win <- getWindow ;;
  if isEmpty (m_openFilename win) then
    setLineEndingMode mode
  else
    let command := ChangeLineEndingCommand (m_lineEndingMode win) mode in
    addUndoCommand command.

Definition nextLineEndingMode : M unit :=
  win <- getWindow ;;
  match m_lineEndingMode win with
  | CROnly => changeLineEndingMode LFOnly
  | LFOnly => changeLineEndingMode CRLF
  | CRLF => changeLineEndingMode CROnly
  end.

(** ** Saving and loading (lines 497-570) *)

(** Lines 497-501: the body is a TODO and [return true]. *)
Definition saveDocumentTo (filename : string) : M bool :=
  ret true.

(** The decode loop of lines 540-545: blocks of [DECODE_BLOCK_SIZE] bytes
    are read and decoded until a read returns nothing.  [rest] is what the
    file still has after its position; [fuel] bounds the number of
    rounds. *)
Fixpoint decodeLoop (fuel : nat) (decoder : QTextDecoder) (rest : list byte)
  : list string :=
  match fuel with
  | O => []
  | S fuel' =>
      let buffer := firstn DECODE_BLOCK_SIZE rest in
      if Nat.eqb (length buffer) 0 then []
      else
        let (piece, decoder') := toUnicode decoder buffer in
        piece :: decodeLoop fuel' decoder' (skipn DECODE_BLOCK_SIZE rest)
  end.

(** Every round but the last consumes at least one byte, so as many rounds
    as there are bytes, and one more to see the end, always suffice. *)
Definition decodeBlocks (decoder : QTextDecoder) (rest : list byte) : list string :=
  decodeLoop (S (length rest)) decoder rest.

Definition largeFileWarning : string :=
  "Warning: Are you sure you want to open this large file?".

Definition loadDocumentFrom (filename textEncoding : string) : M bool :=
  fs <- getFiles ;;
  match fs filename with
  | None =>
      critical ("Cannot open file " ++ filename ++ " for reading") ;;
      ret false
  | Some file =>
      declined <-
        (if LARGE_FILE_SIZE <? file_size file then
           response <- question largeFileWarning [Yes; No] ;;
           ret (StandardButton_eqb response No)
         else ret false) ;;
      if (declined : bool) then ret false
      else
        let detect := detect (QFile_read file 0 DETECTION_SIZE) filename in
        setLineEndingMode (lineEndings detect) ;;
        codec <-
          (if negb (isEmpty textEncoding) then
             let (codec, ok) := codecForName textEncoding in
             if negb ok then
               emit (Log_qDebug ("Invalid manually-specified encoding: " ++ textEncoding)) ;;
               ret None
             else ret (Some codec)
           else ret None) ;;
        let codec := match codec with
                     | Some codec => codec
                     | None => textCodec detect
                     end in
        setEncoding (codec_name codec) ;;
        let pieces :=
          decodeBlocks (makeDecoder codec) (skipn (bomOffset detect) (file_data file)) in
        emit Editor_clear ;;
        modifyEditor editor_clear ;;
        setSyntax nullSyntax ;;
        emit (Editor_setPlainText (String.concat "" pieces)) ;;
        modifyEditor (editor_setPlainText (String.concat "" pieces)) ;;
        emit Document_clearUndoRedoStacks ;;
        modifyEditor document_clearUndoRedoStacks ;;
        emit (Lookup_definitionForFileMagic filename) ;;
        let definition := definitionForFileMagic fs filename in
        definition <-
          (if negb (isValid definition) then
             emit (Lookup_definitionForFileName filename) ;;
             ret (definitionForFileName filename)
           else ret definition) ;;
        (if isValid definition then setSyntax definition else ret tt) ;;
        modifyWindow (set_m_openFilename filename) ;;
        modifyWindow (set_m_documentTitle (fileName filename)) ;;
        QUndoStack_clear ;;
        QUndoStack_setClean ;;
        modifyWindow (set_m_reloadAction true) ;;
        updateTitle ;;
        ret true
  end.

(** ** Prompts and document commands (lines 587-695, 858-868) *)

Definition saveDocument : M bool :=
  emit Call_saveDocument ;;
  win <- getWindow ;;
  path <-
    (if isEmpty (m_openFilename win)
     then getSaveFileName "Save File"
     else ret (m_openFilename win)) ;;
  if isEmpty path then ret false
  else
    saved <- saveDocumentTo path ;;
    if negb saved then ret false
    else
      modifyWindow (set_m_openFilename path) ;;
      modifyWindow (set_m_documentTitle (fileName path)) ;;
      QUndoStack_setClean ;;
      emit Document_clearUndoRedoStacks ;;
      modifyEditor document_clearUndoRedoStacks ;;
      updateTitle ;;
      ret true.

Definition saveDocumentAs : M bool :=
  path <- getSaveFileName "Save File As" ;;
  if isEmpty path then ret false
  else
    saved <- saveDocumentTo path ;;
    if negb saved then ret false
    else
      modifyWindow (set_m_openFilename path) ;;
      modifyWindow (set_m_documentTitle (fileName path)) ;;
      QUndoStack_setClean ;;
      emit Document_clearUndoRedoStacks ;;
      modifyEditor document_clearUndoRedoStacks ;;
      updateTitle ;;
      ret true.

Definition saveDocumentCopy : M bool :=
  path <- getSaveFileName "Save Copy As" ;;
  if isEmpty path then ret false
  else saveDocumentTo path.

Definition promptForSave : M bool :=
  win <- getWindow ;;
  if isDocumentModified win then
    response <-
      question (m_documentTitle win
                ++ " has been modified.  Would you like to save your changes first?")
               [Yes; No; Cancel] ;;
    match response with
    | Cancel => ret false
    | Yes => saveDocument
    | No => ret true
    end
  else ret true.

Definition newDocument : M unit :=
  proceed <- promptForSave ;;
  if negb proceed then ret tt
  else
    emit Editor_clear ;;
    modifyEditor editor_clear ;;
    emit Document_clearUndoRedoStacks ;;
    modifyEditor document_clearUndoRedoStacks ;;
    setSyntax nullSyntax ;;
    setEncoding "UTF-8" ;;
    (if isWin32 then setLineEndingMode CRLF else setLineEndingMode LFOnly) ;;
    modifyWindow (set_m_openFilename "") ;;
    modifyWindow (set_m_documentTitle "Untitled") ;;
    QUndoStack_clear ;;
    QUndoStack_setClean ;;
    modifyWindow (set_m_reloadAction false) ;;
    updateTitle.

Definition loadDocument : M bool :=
  win <- getWindow ;;
  let startPath :=
    if negb (isEmpty (m_openFilename win))
    then absolutePath (m_openFilename win) else "" in
  path <- getOpenFileName "Load File" startPath ;;
  if isEmpty path then ret false
  else loadDocumentFrom path "".

Definition reloadDocument : M bool :=
  win <- getWindow ;;
  declined <-
    (if isDocumentModified win then
       response <-
         question (m_documentTitle win
                   ++ " has been modified.  Are you sure you want to discard your changes?")
                  [Yes; No] ;;
       ret (StandardButton_eqb response No)
     else ret false) ;;
  if (declined : bool) then ret false
  else loadDocumentFrom (m_openFilename win) "".

(** [closeEvent]: the result tells whether the event was accepted. *)
Definition closeEvent : M bool :=
  proceed <- promptForSave ;;
  if negb proceed then ret false
  else
    emit Settings_setWindowSize ;;
    ret true.

End Window.

(** ** The user at the window

    What the constructor connects (lines 112-115, 141-149, 189-190, 306-308,
    357-360) and what the populate methods connect (lines 887-889, 908,
    957-959): each action of the user is a call of one method.  The Reload
    action can only be triggered while it is enabled (lines 567, 622). *)
Inductive UserAction : Type :=
| TypeText (text : string)
| MenuNew
| MenuOpen
| MenuReload
| MenuSave
| MenuSaveAs
| MenuSaveCopy
| MenuUndo
| MenuRedo
| MenuLineEnding (mode : LineEndingMode)
| MenuEncoding (codecName : string)
| MenuSyntax (d : KDefinition)
| ClickLineEndingLabel
| CloseWindow.

Section Session.

Context `{Collaborators}.

Definition trigger (a : UserAction) : M unit :=
  match a with
  | TypeText text => editText text
  | MenuNew => newDocument
  | MenuOpen => loadDocument ;; ret tt
  | MenuReload =>
      win <- getWindow ;;
      if m_reloadAction win then reloadDocument ;; ret tt else ret tt
  | MenuSave => saveDocument ;; ret tt
  | MenuSaveAs => saveDocumentAs ;; ret tt
  | MenuSaveCopy => saveDocumentCopy ;; ret tt
  | MenuUndo => QUndoStack_undo
  | MenuRedo => QUndoStack_redo
  | MenuLineEnding mode => changeLineEndingMode mode
  | MenuEncoding codecName => changeEncoding codecName
  | MenuSyntax d => setSyntax d
  | ClickLineEndingLabel => nextLineEndingMode
  | CloseWindow => closeEvent ;; ret tt
  end.

(** The user's actions, one after the other. *)
Fixpoint session (actions : list UserAction) : M unit :=
  match actions with
  | [] => ret tt
  | a :: rest => trigger a ;; session rest
  end.

End Session.

(** ** Insert mode (lines 458-463, 736-739)

    The editor's overwrite flag, the check mark of the Overwrite Mode action
    and the text of the insert label. *)
Record InsertWidgets : Type := {
  overwriteMode : bool;
  m_overwriteModeAction : bool;
  m_insertLabel : string
}.

(** [setOverwriteMode].  [QAction::setChecked] emits [toggled] when the
    check mark changes, and the constructor connects that signal back to
    [setOverwriteMode] (lines 196-197); the call it causes finds the check
    mark already set, so [fuel] 1 is all it ever uses. *)
Fixpoint setOverwriteMode_fuel (fuel : nat) (overwrite : bool) (s : InsertWidgets)
  : InsertWidgets :=
  let s :=
    {| overwriteMode := overwrite;
       m_overwriteModeAction := m_overwriteModeAction s;
       m_insertLabel := m_insertLabel s |} in
  let s :=
    if Bool.eqb (m_overwriteModeAction s) overwrite then s
    else
      let s := {| overwriteMode := overwriteMode s;
                  m_overwriteModeAction := overwrite;
                  m_insertLabel := m_insertLabel s |} in
      match fuel with
      | O => s
      | S fuel' => setOverwriteMode_fuel fuel' overwrite s
      end in
  {| overwriteMode := overwriteMode s;
     m_overwriteModeAction := m_overwriteModeAction s;
     m_insertLabel := if overwrite then "OVR" else "INS" |}.

Definition setOverwriteMode (overwrite : bool) (s : InsertWidgets) : InsertWidgets :=
  setOverwriteMode_fuel 1 overwrite s.

Definition nextInsertMode (s : InsertWidgets) : InsertWidgets :=
  setOverwriteMode (negb (overwriteMode s)) s.

(** The user toggles the Overwrite Mode action in the menu: the check mark
    flips and [toggled] calls [setOverwriteMode] (lines 196-197). *)
Definition toggleOverwriteModeAction (s : InsertWidgets) : InsertWidgets :=
  let checked := negb (m_overwriteModeAction s) in
  setOverwriteMode checked
    {| overwriteMode := overwriteMode s;
       m_overwriteModeAction := checked;
       m_insertLabel := m_insertLabel s |}.

(** ** Indentation status (lines 756-815, 963-1083) *)

(** [SyntaxTextEdit::IndentationMode]: the three modes the window names,
    and any other value, which the [default] of the switch is for. *)
Inductive IndentationMode : Type :=
| IndentSpaces | IndentTabs | IndentMixed | IndentOther.

Definition IndentationMode_eqb (a b : IndentationMode) : bool :=
  match a, b with
  | IndentSpaces, IndentSpaces | IndentTabs, IndentTabs
  | IndentMixed, IndentMixed | IndentOther, IndentOther => true
  | _, _ => false
  end.

(** What [updateIndentStatus] reads from the editor. *)
Record IndentSettings : Type := {
  tabWidth : Z;
  indentWidth : Z;
  indentationMode : IndentationMode
}.

(** What it writes: the text of the indent button and the checked action of
    each of the three groups of its menu.  An action is its data: a width,
    or nothing for "Other...". *)
Record IndentWidgets : Type := {
  m_indentButton : string;
  m_tabWidthActions : option (option Z);
  m_indentWidthActions : option (option Z);
  m_indentModeActions : option IndentationMode
}.

(** The actions of the groups as [populateIndentButtonMenu] creates them
    (lines 977-993, 1013-1028, 1049-1061). *)
Definition widthActions : list (option Z) := [Some 8; Some 4; Some 2; None].
Definition indentModeActions : list IndentationMode :=
  [IndentSpaces; IndentTabs; IndentMixed].

(** [QString::arg] of an int: its decimal digits. *)
Definition arg_int (n : Z) : string := NilZero.string_of_int (Z.to_int n).

(** The loops of lines 784-808: an action without data is remembered as the
    other action, an action whose data is the width is checked; when none
    was, the other action is checked. *)
Definition checkWidthAction (width : Z) (checked : option (option Z))
  : option (option Z) :=
  let '(otherAction, haveMatch, checked) :=
    fold_left
      (fun (st : option (option Z) * bool * option (option Z)) (action : option Z) =>
         let '(otherAction, haveMatch, checked) := st in
         match action with
         | None => (Some action, haveMatch, checked)
         | Some data =>
             if width =? data then (otherAction, true, Some action)
             else (otherAction, haveMatch, checked)
         end)
      widthActions (None, false, checked) in
  match haveMatch, otherAction with
  | false, Some other => Some other
  | _, _ => checked
  end.

(** The loop of lines 810-814. *)
Definition checkModeAction (indentMode : IndentationMode)
    (checked : option IndentationMode) : option IndentationMode :=
  fold_left
    (fun checked actionMode =>
       if IndentationMode_eqb indentMode actionMode then Some actionMode else checked)
    indentModeActions checked.

Definition updateIndentStatus (editor : IndentSettings) (ws : IndentWidgets)
  : IndentWidgets :=
  let tabWidth := tabWidth editor in
  let indentWidth := indentWidth editor in
  let indentMode := indentationMode editor in
  let description :=
    match indentMode with
    | IndentSpaces =>
        let description := "Soft Tabs: " ++ arg_int indentWidth in
        if negb (tabWidth =? indentWidth)
        then description ++ " (" ++ arg_int tabWidth ++ ")" else description
    | IndentTabs => "Tab Size: " ++ arg_int tabWidth
    | IndentMixed =>
        let description := "Mixed Indent: " ++ arg_int indentWidth in
        if negb (tabWidth =? indentWidth)
        then description ++ " (" ++ arg_int tabWidth ++ ")" else description
    | IndentOther => "INVALID"
    end in
  {| m_indentButton := description;
     m_tabWidthActions := checkWidthAction tabWidth (m_tabWidthActions ws);
     m_indentWidthActions := checkWidthAction indentWidth (m_indentWidthActions ws);
     m_indentModeActions := checkModeAction indentMode (m_indentModeActions ws) |}.

(** ** A small concrete setting

    Two codecs that decode byte by byte, a detector that looks for a UTF-8
    byte-order mark and for the first line break, a repository of three
    syntaxes, and a disk with a few files.  The examples at the end run the
    window in it. *)
Module Fixture.

Inductive Codec : Type := Latin1 | Utf8.

Definition name_of (c : Codec) : string :=
  match c with
  | Latin1 => "ISO-8859-1"
  | Utf8 => "UTF-8"
  end.

Definition lookup (name : string) : Codec * bool :=
  if String.eqb name "UTF-8" then (Utf8, true)
  else if String.eqb name "ISO-8859-1" then (Latin1, true)
  else (Latin1, false).

Fixpoint firstBreak (bytes : list byte) : LineEndingMode :=
  match bytes with
  | [] => LFOnly
  | x0d :: x0a :: _ => CRLF
  | x0d :: _ => CROnly
  | x0a :: _ => LFOnly
  | _ :: rest => firstBreak rest
  end.

Definition detectFile (prefix : list byte) (filename : string) : FileDetection Codec :=
  match prefix with
  | xef :: xbb :: xbf :: rest =>
      {| lineEndings := firstBreak rest; textCodec := Utf8; bomOffset := 3 |}
  | _ =>
      {| lineEndings := firstBreak prefix; textCodec := Latin1; bomOffset := 0 |}
  end.

Definition magic (fs : FileSystem) (filename : string) : KDefinition :=
  match fs filename with
  | Some f =>
      match file_data f with
      | x23 :: x21 :: _ => SyntaxDefinition "Bash"
      | _ => InvalidDefinition
      end
  | None => InvalidDefinition
  end.

Definition byName (filename : string) : KDefinition :=
  if String.eqb (fileName filename) "Makefile" then SyntaxDefinition "Makefile"
  else InvalidDefinition.

Definition collaborators : Collaborators :=
  {| QTextCodec := Codec;
     QTextDecoder := unit;
     codec_name := name_of;
     makeDecoder := fun _ => tt;
     toUnicode := fun d buffer => (string_of_list_byte buffer, d);
     codecForName := lookup;
     encodingsByScript := [["Unicode"; "UTF-8"]; ["Western European"; "ISO-8859-1"]];
     detect := detectFile;
     definitionForFileMagic := magic;
     definitionForFileName := byName;
     definitions := [SyntaxDefinition "Bash"; SyntaxDefinition "Makefile"];
     absolutePath := fun path => path;
     isWin32 := false |}.

#[local] Existing Instance collaborators.

Definition notes : QFileData :=
  {| file_size := 8; file_data := list_byte_of_string "old text" |}.
Definition report : QFileData :=
  {| file_size := 15;
     file_data := [x23; x21] ++ list_byte_of_string "/bin/sh" ++ [x0d; x0a]
                  ++ list_byte_of_string "ls" ++ [x0d; x0a] |}.
Definition makefile : QFileData :=
  {| file_size := 5; file_data := list_byte_of_string "all:" ++ [x0a] |}.
Definition edge : QFileData :=
  {| file_size := 10 * 1024 * 1024;
     file_data := repeat x00 (Z.to_nat (10 * 1024 * 1024)) |}.
Definition over : QFileData :=
  {| file_size := 10 * 1024 * 1024 + 1;
     file_data := repeat x00 (Z.to_nat (10 * 1024 * 1024 + 1)) |}.

Definition disk : FileSystem :=
  fun path =>
    if String.eqb path "/home/u/notes.txt" then Some notes
    else if String.eqb path "/home/u/report.txt" then Some report
    else if String.eqb path "/home/u/Makefile" then Some makefile
    else if String.eqb path "/home/u/edge.bin" then Some edge
    else if String.eqb path "/home/u/over.bin" then Some over
    else None.

Definition blankWindow : QTextPadWindow :=
  {| m_editor := {| plainText := ""; syntax := InvalidDefinition;
                    documentUndo := []; documentRedo := [] |};
     m_undoStack := {| command_list := []; index := 0; clean_index := 0 |};
     m_textEncoding := ""; m_lineEndingMode := LFOnly;
     m_openFilename := ""; m_documentTitle := "";
     m_syntaxButton := ""; m_encodingButton := ""; m_crlfLabel := "";
     m_syntaxActions := None; m_encodingActions := None;
     m_lineEndingActions := None;
     m_reloadAction := true; windowTitle := "" |}.

(** The window as the constructor leaves it (it ends with [newDocument],
    line 392), in front of a user who is going to give these answers. *)
Definition startup (buttons : list StandardButton) (paths : list string) : World :=
  let w := snd (newDocument
                  {| window := blankWindow; files := disk; answers := [];
                     chosenPaths := []; trace := [] |}) in
  set_chosenPaths paths (set_answers buttons (set_trace [] w)).

(** A new document, and the same in front of a user who is going to pick
    a path in the next file dialog. *)
Definition untitled : World := startup [] [].
Definition untitledWithPath : World := startup [] ["/home/u/draft.txt"].

(** The user types into the new document. *)
Definition typed : World :=
  snd (editText "new text" untitled).
Definition typedWithPath : World :=
  snd (editText "new text" untitledWithPath).

(** notes.txt is opened; then the user types and changes the encoding and
    the line endings, which leaves three commands on the undo stack. *)
Definition opening : bool * World :=
  loadDocumentFrom "/home/u/notes.txt" "" untitled.
Definition opened : World := snd opening.
Definition dirty : World :=
  snd ((editText "new text" ;;
        changeEncoding "UTF-8" ;;
        changeLineEndingMode CRLF) opened).

(** The same window in front of a user who is going to answer No. *)
Definition refusing : World := set_answers [No] untitled.

End Fixture.

(** * Properties *)

(** ** What the statements are made of *)

(** The push events of a trace, in order. *)
Definition pushes (evs : list Event) : list QUndoCommand :=
  flat_map (fun e => match e with UndoStack_push cmd => [cmd] | _ => [] end) evs.

(** The message boxes and file dialogs of a trace. *)
Definition isDialog (e : Event) : bool :=
  match e with
  | MessageBox_critical _ | MessageBox_question _ _
  | FileDialog_getSaveFileName _ | FileDialog_getOpenFileName _ _ => true
  | _ => false
  end.

Definition dialogs (evs : list Event) : list Event := filter isDialog evs.

(** What is done to the editor and its syntax. *)
Definition isEditorEvent (e : Event) : bool :=
  match e with
  | Editor_clear | Call_setSyntax _ | Editor_setPlainText _
  | Document_clearUndoRedoStacks => true
  | _ => false
  end.

(** The calls of the two setters of the load pipeline. *)
Definition isSetterCall (e : Event) : bool :=
  match e with
  | Call_setEncoding _ | Call_setLineEndingMode _ => true
  | _ => false
  end.

(** The dialogs and the call that a prompt for saving can lead to. *)
Definition isPromptEvent (e : Event) : bool :=
  match e with
  | Call_saveDocument => true
  | _ => isDialog e
  end.

(** The syntax lookups of the load pipeline. *)
Definition isLookup (e : Event) : bool :=
  match e with
  | Lookup_definitionForFileMagic _ | Lookup_definitionForFileName _ => true
  | _ => false
  end.

(** The position of the first event of a kind. *)
Fixpoint firstIndex (p : Event -> bool) (evs : list Event) : option nat :=
  match evs with
  | [] => None
  | e :: rest => if p e then Some O else option_map S (firstIndex p rest)
  end.

Definition isCall_setEncoding (e : Event) : bool :=
  match e with Call_setEncoding _ => true | _ => false end.

Definition isCall_setLineEndingMode (e : Event) : bool :=
  match e with Call_setLineEndingMode _ => true | _ => false end.

(** [p] happens, and before any [q] does. *)
Definition happensBefore (p q : Event -> bool) (evs : list Event) : bool :=
  match firstIndex p evs, firstIndex q evs with
  | Some i, Some j => Nat.ltb i j
  | Some _, None => true
  | None, _ => false
  end.

(** ** The methods as window transformers

    A method that asks the user nothing changes the window by a function of
    the window and appends events that depend on the window only.  The
    functions below say which, field by field; the lemmas [*_updates]
    prove that the methods do exactly that. *)

Definition updates (c : M unit) (f : QTextPadWindow -> QTextPadWindow)
    (evs : QTextPadWindow -> list Event) : Prop :=
  forall w : World,
    c w = (tt, set_trace (trace w ++ evs (window w)) (set_window (f (window w)) w)).

Section Summaries.

Context `{Collaborators}.

Definition setSyntax_window (d : KDefinition) (win : QTextPadWindow) : QTextPadWindow :=
  set_m_syntaxActions
    (match find (fun actionDef => KDefinition_eqb actionDef d) syntaxActions with
     | Some actionDef => Some actionDef
     | None => m_syntaxActions win
     end)
    (set_m_syntaxButton (if isValid d then translatedName d else "Plain Text")
       (set_m_editor (editor_setSyntax d (m_editor win)) win)).

Definition setEncoding_window (name : string) (win : QTextPadWindow) : QTextPadWindow :=
  set_m_encodingActions
    (find (fun actionCodec => String.eqb actionCodec name) encodingActions)
    (set_m_encodingButton
       (if snd (codecForName name) then name else "Invalid (" ++ name ++ ")")
       (set_m_textEncoding name win)).

Definition setEncoding_events (name : string) : list Event :=
  Call_setEncoding name ::
  (if snd (codecForName name) then [] else [Log_qWarning "Invalid codec selected"]).

Definition setLineEndingMode_window (mode : LineEndingMode) (win : QTextPadWindow)
  : QTextPadWindow :=
  set_m_lineEndingActions (Some mode)
    (set_m_crlfLabel
       (match mode with CROnly => "CR" | LFOnly => "LF" | CRLF => "CRLF" end)
       (set_m_lineEndingMode mode win)).

Definition titleOf (win : QTextPadWindow) : string :=
  let title := m_documentTitle win ++ " " ++ ndash ++ " qtextpad" in
  if isDocumentModified win then "* " ++ title else title.

Definition updateTitle_window (win : QTextPadWindow) : QTextPadWindow :=
  set_windowTitle (titleOf win) win.

Definition cleanChanged_window (was_clean : bool) (win : QTextPadWindow) : QTextPadWindow :=
  set_windowTitle
    (if Bool.eqb (isClean (m_undoStack win)) was_clean
     then windowTitle win else titleOf win) win.

Definition clear_stack (s : QUndoStack) : QUndoStack :=
  {| command_list := [];
     index := match command_list s with [] => index s | _ :: _ => O end;
     clean_index := match command_list s with [] => clean_index s | _ :: _ => 0 end |}.

Definition QUndoStack_clear_window (win : QTextPadWindow) : QTextPadWindow :=
  cleanChanged_window (isClean (m_undoStack win))
    (set_m_undoStack (clear_stack (m_undoStack win)) win).

Definition setClean_stack (s : QUndoStack) : QUndoStack :=
  {| command_list := command_list s; index := index s;
     clean_index := Z.of_nat (index s) |}.

Definition QUndoStack_setClean_window (win : QTextPadWindow) : QTextPadWindow :=
  cleanChanged_window (isClean (m_undoStack win))
    (set_m_undoStack (setClean_stack (m_undoStack win)) win).

(** The codec [loadDocumentFrom] decodes with, and the syntax it ends
    with. *)
Definition effectiveCodec (textEncoding : string) (det : FileDetection QTextCodec)
  : QTextCodec :=
  if negb (isEmpty textEncoding) && snd (codecForName textEncoding)
  then fst (codecForName textEncoding)
  else textCodec det.

Definition resolvedSyntax (fs : FileSystem) (filename : string) : KDefinition :=
  if isValid (definitionForFileMagic fs filename)
  then definitionForFileMagic fs filename
  else definitionForFileName filename.

Definition detected (file : QFileData) (filename : string) : FileDetection QTextCodec :=
  detect (QFile_read file 0 DETECTION_SIZE) filename.

Definition decodedText (file : QFileData) (filename textEncoding : string) : string :=
  let det := detected file filename in
  String.concat ""
    (decodeBlocks (makeDecoder (effectiveCodec textEncoding det))
       (skipn (bomOffset det) (file_data file))).

(** The window after a load that was not refused, and the events of that
    load after the gate. *)
Definition loaded_window (fs : FileSystem) (file : QFileData)
    (filename textEncoding : string) (win : QTextPadWindow) : QTextPadWindow :=
  let det := detected file filename in
  let d := resolvedSyntax fs filename in
  let win := setLineEndingMode_window (lineEndings det) win in
  let win := setEncoding_window (codec_name (effectiveCodec textEncoding det)) win in
  let win := set_m_editor (editor_clear (m_editor win)) win in
  let win := setSyntax_window nullSyntax win in
  let win :=
    set_m_editor
      (document_clearUndoRedoStacks
         (editor_setPlainText (decodedText file filename textEncoding) (m_editor win)))
      win in
  let win := if isValid d then setSyntax_window d win else win in
  let win := set_m_documentTitle (fileName filename) (set_m_openFilename filename win) in
  let win := QUndoStack_setClean_window (QUndoStack_clear_window win) in
  updateTitle_window (set_m_reloadAction true win).

Definition loaded_events (fs : FileSystem) (file : QFileData)
    (filename textEncoding : string) : list Event :=
  let det := detected file filename in
  let d := resolvedSyntax fs filename in
  ([Call_setLineEndingMode (lineEndings det)]
   ++ (if negb (isEmpty textEncoding) && negb (snd (codecForName textEncoding))
       then [Log_qDebug ("Invalid manually-specified encoding: " ++ textEncoding)]
       else [])
   ++ setEncoding_events (codec_name (effectiveCodec textEncoding det))
   ++ [Editor_clear; Call_setSyntax nullSyntax;
       Editor_setPlainText (decodedText file filename textEncoding);
       Document_clearUndoRedoStacks;
       Lookup_definitionForFileMagic filename]
   ++ (if isValid (definitionForFileMagic fs filename) then []
       else [Lookup_definitionForFileName filename])
   ++ (if isValid d then [Call_setSyntax d] else [])
   ++ [UndoStack_clear; UndoStack_setClean])%list.

End Summaries.

Arguments setSyntax : simpl never.
Arguments setEncoding : simpl never.
Arguments setLineEndingMode : simpl never.
Arguments updateTitle : simpl never.
Arguments cleanChanged : simpl never.
Arguments QUndoStack_clear : simpl never.
Arguments QUndoStack_setClean : simpl never.
Arguments QFile_read : simpl never.
Arguments decodeBlocks : simpl never.
Arguments Z.ltb : simpl never.
Arguments Z.eqb : simpl never.

(** ** More methods as window transformers *)

Section MoreSummaries.

Context `{Collaborators}.

Definition command_redo_window (cmd : QUndoCommand) (win : QTextPadWindow)
  : QTextPadWindow :=
  match cmd with
  | TextEditorUndoCommand => set_m_editor (document_redo (m_editor win)) win
  | ChangeEncodingCommand _ newEncoding => setEncoding_window newEncoding win
  | ChangeLineEndingCommand _ newMode => setLineEndingMode_window newMode win
  end.

Definition command_redo_events (cmd : QUndoCommand) : list Event :=
  match cmd with
  | TextEditorUndoCommand => []
  | ChangeEncodingCommand _ newEncoding => setEncoding_events newEncoding
  | ChangeLineEndingCommand _ newMode => [Call_setLineEndingMode newMode]
  end.

Definition command_undo_window (cmd : QUndoCommand) (win : QTextPadWindow)
  : QTextPadWindow :=
  match cmd with
  | TextEditorUndoCommand => set_m_editor (document_undo (m_editor win)) win
  | ChangeEncodingCommand oldEncoding _ => setEncoding_window oldEncoding win
  | ChangeLineEndingCommand oldMode _ => setLineEndingMode_window oldMode win
  end.

Definition command_undo_events (cmd : QUndoCommand) : list Event :=
  match cmd with
  | TextEditorUndoCommand => []
  | ChangeEncodingCommand oldEncoding _ => setEncoding_events oldEncoding
  | ChangeLineEndingCommand oldMode _ => [Call_setLineEndingMode oldMode]
  end.

Definition push_stack (cmd : QUndoCommand) (s : QUndoStack) : QUndoStack :=
  {| command_list := firstn (index s) (command_list s) ++ [cmd];
     index := S (index s);
     clean_index := if Z.of_nat (index s) <? clean_index s then -1 else clean_index s |}.

Definition QUndoStack_push_window (cmd : QUndoCommand) (win : QTextPadWindow)
  : QTextPadWindow :=
  let win := command_redo_window cmd win in
  let s := m_undoStack win in
  cleanChanged_window
    ((if Z.of_nat (index s) <? clean_index s then -1 else clean_index s)
     =? Z.of_nat (index s))
    (set_m_undoStack (push_stack cmd s) win).

Definition QUndoStack_undo_window (win : QTextPadWindow) : QTextPadWindow :=
  let s := m_undoStack win in
  match index s with
  | O => win
  | S idx =>
      match nth_error (command_list s) idx with
      | None => win
      | Some cmd =>
          let win := command_undo_window cmd win in
          let s' := m_undoStack win in
          cleanChanged_window (isClean s')
            (set_m_undoStack
               {| command_list := command_list s'; index := idx;
                  clean_index := clean_index s' |} win)
      end
  end.

Definition QUndoStack_undo_events (win : QTextPadWindow) : list Event :=
  let s := m_undoStack win in
  match index s with
  | O => []
  | S idx =>
      match nth_error (command_list s) idx with
      | None => []
      | Some cmd => command_undo_events cmd
      end
  end.

Definition QUndoStack_redo_window (win : QTextPadWindow) : QTextPadWindow :=
  let s := m_undoStack win in
  match nth_error (command_list s) (index s) with
  | None => win
  | Some cmd =>
      let win := command_redo_window cmd win in
      let s' := m_undoStack win in
      cleanChanged_window (isClean s')
        (set_m_undoStack
           {| command_list := command_list s'; index := S (index s');
              clean_index := clean_index s' |} win)
  end.

Definition QUndoStack_redo_events (win : QTextPadWindow) : list Event :=
  let s := m_undoStack win in
  match nth_error (command_list s) (index s) with
  | None => []
  | Some cmd => command_redo_events cmd
  end.

(** The window after [newDocument] has gone ahead, and the events of
    that. *)
Definition new_window (win : QTextPadWindow) : QTextPadWindow :=
  let win := set_m_editor (editor_clear (m_editor win)) win in
  let win := set_m_editor (document_clearUndoRedoStacks (m_editor win)) win in
  let win := setSyntax_window nullSyntax win in
  let win := setEncoding_window "UTF-8" win in
  let win := setLineEndingMode_window (if isWin32 then CRLF else LFOnly) win in
  let win := set_m_openFilename "" win in
  let win := set_m_documentTitle "Untitled" win in
  let win := QUndoStack_clear_window win in
  let win := QUndoStack_setClean_window win in
  updateTitle_window (set_m_reloadAction false win).

Definition new_events : list Event :=
  ([Editor_clear; Document_clearUndoRedoStacks; Call_setSyntax nullSyntax]
   ++ setEncoding_events "UTF-8"
   ++ [Call_setLineEndingMode (if isWin32 then CRLF else LFOnly);
       UndoStack_clear; UndoStack_setClean])%list.

(** The window after a save to [path]. *)
Definition saved_window (path : string) (win : QTextPadWindow) : QTextPadWindow :=
  let win := set_m_openFilename path win in
  let win := set_m_documentTitle (fileName path) win in
  let win := QUndoStack_setClean_window win in
  let win := set_m_editor (document_clearUndoRedoStacks (m_editor win)) win in
  updateTitle_window win.

(** The world after the part of a save that comes before the write: the
    call is logged and, when the document has no file name, the file dialog
    has been shown and a path taken. *)
Definition saveAsked (w : World) : World :=
  if isEmpty (m_openFilename (window w)) then
    set_chosenPaths (tl (chosenPaths w))
      (set_trace (trace w ++ [Call_saveDocument; FileDialog_getSaveFileName "Save File"]) w)
  else set_trace (trace w ++ [Call_saveDocument]) w.

Definition savePath (w : World) : string :=
  if isEmpty (m_openFilename (window w))
  then hd "" (chosenPaths w) else m_openFilename (window w).

Definition savedWorld (path : string) (w : World) : World :=
  set_trace (trace w ++ [UndoStack_setClean; Document_clearUndoRedoStacks])
    (set_window (saved_window path (window w)) w).

(** The world after a file dialog with this caption has returned. *)
Definition picked (e : Event) (w : World) : World :=
  set_chosenPaths (tl (chosenPaths w)) (set_trace (trace w ++ [e]) w).

(** The world after a question has been answered. *)
Definition answered (text : string) (buttons : list StandardButton) (w : World)
  : World :=
  set_answers (tl (answers w))
    (set_trace (trace w ++ [MessageBox_question text buttons]) w).

Definition saveQuestion (win : QTextPadWindow) : string :=
  m_documentTitle win
  ++ " has been modified.  Would you like to save your changes first?".

Definition discardQuestion (win : QTextPadWindow) : string :=
  m_documentTitle win
  ++ " has been modified.  Are you sure you want to discard your changes?".

Definition newWorld (w : World) : World :=
  set_trace (trace w ++ new_events) (set_window (new_window (window w)) w).

(** The window in front of the user: the constructor's [newDocument]
    (line 392) and then what the user does. *)
Definition afterSession (actions : list UserAction) (w : World) : World :=
  snd ((newDocument ;; session actions) w).

(** The line-ending mode that follows in the cycle of the label. *)
Definition nextMode (mode : LineEndingMode) : LineEndingMode :=
  match mode with CROnly => LFOnly | LFOnly => CRLF | CRLF => CROnly end.

Definition isQuestion (e : Event) : bool :=
  match e with MessageBox_question _ _ => true | _ => false end.

(** *** What stays true of the window *)

Definition stack_ok (s : QUndoStack) : Prop :=
  (index s <= length (command_list s))%nat.

Definition lineEndingLabel (mode : LineEndingMode) : string :=
  match mode with CROnly => "CR" | LFOnly => "LF" | CRLF => "CRLF" end.

Definition encodingLabel (name : string) : string :=
  if snd (codecForName name) then name else "Invalid (" ++ name ++ ")".

Definition syntaxLabel (d : KDefinition) : string :=
  if isValid d then translatedName d else "Plain Text".

Definition documentTitleOf (filename : string) : string :=
  if isEmpty filename then "Untitled" else fileName filename.

Definition isTextCommand (cmd : QUndoCommand) : bool :=
  match cmd with TextEditorUndoCommand => true | _ => false end.

(** The window is consistent: the index of the undo stack is within its
    commands; the title, the labels and the check marks say what the fields
    hold; Reload is enabled only with a file name; and the history of a
    document without a file name holds text commands only. *)
Record consistent (win : QTextPadWindow) : Prop := {
  c_stack : stack_ok (m_undoStack win);
  c_title : windowTitle win = titleOf win;
  c_documentTitle : m_documentTitle win = documentTitleOf (m_openFilename win);
  c_crlfLabel : m_crlfLabel win = lineEndingLabel (m_lineEndingMode win);
  c_lineEndingActions : m_lineEndingActions win = Some (m_lineEndingMode win);
  c_encodingButton : m_encodingButton win = encodingLabel (m_textEncoding win);
  c_encodingActions :
    m_encodingActions win =
      find (fun actionCodec => String.eqb actionCodec (m_textEncoding win))
        encodingActions;
  c_syntaxButton : m_syntaxButton win = syntaxLabel (syntax (m_editor win));
  c_syntaxActions :
    forall actionDef,
      find (fun actionDef => KDefinition_eqb actionDef (syntax (m_editor win)))
        syntaxActions = Some actionDef ->
      m_syntaxActions win = Some actionDef;
  c_reload : m_reloadAction win = true -> m_openFilename win <> "";
  c_silent :
    m_openFilename win = "" ->
    forallb isTextCommand (command_list (m_undoStack win)) = true
}.

(** The window as the constructor has it before it calls [newDocument]: the
    undo stack is new (line 111). *)
Definition constructed (win : QTextPadWindow) : Prop :=
  m_undoStack win = {| command_list := []; index := 0; clean_index := 0 |}.

End MoreSummaries.

(** ** A second setting: a user at work *)
Module Scenario.

#[local] Existing Instance Fixture.collaborators.

(** A morning at the window: type, save under a new name, change the
    settings, undo, open another file, reload it. *)
Definition morning : list UserAction :=
  [TypeText "draft"; MenuSave; MenuEncoding "ISO-8859-1"; MenuLineEnding CRLF;
   ClickLineEndingLabel; MenuUndo; MenuUndo; MenuRedo; TypeText "draft 2";
   MenuSyntax (SyntaxDefinition "Bash"); MenuSaveCopy; MenuOpen; MenuReload;
   TypeText "notes"; MenuNew; TypeText "more"; CloseWindow].

(** The user in front of the new window: the paths to pick in the file
    dialogs and the answers to give to the questions. *)
Definition atStart : World :=
  Fixture.startup [Yes; No; Cancel]
    ["/home/u/draft.txt"; "/home/u/copy.txt"; "/home/u/notes.txt"].

Definition insertMode : InsertWidgets :=
  {| overwriteMode := false; m_overwriteModeAction := false; m_insertLabel := "INS" |}.

(** Another start: the user types, then opens notes.txt without saving and
    changes its encoding. *)
Definition openNotes : list UserAction :=
  [TypeText "scratch"; MenuOpen; MenuEncoding "UTF-8"].

Definition atDesk : World := Fixture.startup [No] ["/home/u/notes.txt"].

(** The user has typed into a new document and is going to give this
    answer to the next question. *)
Definition answering (b : StandardButton) : World :=
  set_answers [b] Fixture.typedWithPath.

End Scenario.

(** ** Tactics and basic facts *)

Lemma events_since_app (w w' : World) (evs : list Event) :
  trace w' = (trace w ++ evs)%list -> events_since w w' = evs.
Proof.
  intros E. unfold events_since. rewrite E.
  rewrite skipn_app, skipn_all, Nat.sub_diag. reflexivity.
Qed.

Lemma isEmpty_true (s : string) : isEmpty s = true <-> s = "".
Proof. unfold isEmpty. apply String.eqb_eq. Qed.

Lemma isEmpty_false (s : string) : isEmpty s = false <-> s <> "".
Proof. unfold isEmpty. apply String.eqb_neq. Qed.

(** Unfolds the monad and the handles on the world. *)
Ltac unfold_monad :=
  unfold bind, ret, getWindow, getFiles, modifyStack, modifyEditor, modifyWindow,
    emit, critical, question, getSaveFileName, getOpenFileName, nextPath in *.

(** Splits on the tests a goal is stuck on. *)
Ltac split_tests :=
  repeat match goal with
    | |- context [match ?c with _ => _ end] =>
        lazymatch c with
        | context [match _ with _ => _ end] => fail
        | _ => destruct c eqn:?
        end; simpl in *
    end.

(** Brings the trace of the goal into the form [trace w ++ evs]. *)
Ltac flat_trace := repeat rewrite <- app_assoc; simpl.

(** Rewrites [events_since w w'] into the events that were appended. *)
Ltac since :=
  erewrite events_since_app; [ | simpl; flat_trace; reflexivity ]; simpl.

(** Computes the records of a goal field by field, leaving the values of
    the fields as they are. *)
Ltac normal_world :=
  cbv [window files answers chosenPaths trace
       set_window set_trace set_answers set_chosenPaths
       m_editor m_undoStack m_textEncoding m_lineEndingMode m_openFilename
       m_documentTitle m_syntaxButton m_encodingButton m_crlfLabel
       m_syntaxActions m_encodingActions m_lineEndingActions m_reloadAction
       windowTitle
       set_m_editor set_m_undoStack set_m_textEncoding set_m_lineEndingMode
       set_m_openFilename set_m_documentTitle set_m_syntaxButton
       set_m_encodingButton set_m_crlfLabel set_m_syntaxActions
       set_m_encodingActions set_m_lineEndingActions set_m_reloadAction
       set_windowTitle
       setSyntax_window setEncoding_window setLineEndingMode_window
       updateTitle_window cleanChanged_window QUndoStack_clear_window
       QUndoStack_setClean_window clear_stack setClean_stack titleOf
       isDocumentModified isClean
       editor_clear editor_setSyntax editor_setPlainText
       document_clearUndoRedoStacks plainText syntax documentUndo documentRedo
       command_list index clean_index].

(** Closes an equation between two worlds that have the same fields. *)
Ltac same_world :=
  match goal with
  | |- context [window ?w] =>
      is_var w; destruct w as [[] ? ? ? ?]; simpl in *;
      rewrite <- ?app_assoc, ?app_nil_r; simpl; try reflexivity
  end.

Section Properties.

Context `{Collaborators}.

(** *** The decode loop ends *)

Lemma DECODE_BLOCK_SIZE_positive : (0 < DECODE_BLOCK_SIZE)%nat.
Proof. apply Nat.ltb_lt. reflexivity. Qed.

(** Two runs of the loop with enough fuel read the same blocks. *)
Lemma decodeLoop_fuel (fuel1 fuel2 : nat) :
  forall (decoder : QTextDecoder) (rest : list byte),
    (length rest < fuel1)%nat -> (length rest < fuel2)%nat ->
    decodeLoop fuel1 decoder rest = decodeLoop fuel2 decoder rest.
Proof.
  pose proof DECODE_BLOCK_SIZE_positive as P.
  revert fuel2. induction fuel1 as [|fuel1 IH]; intros fuel2 decoder rest L1 L2.
  - inversion L1.
  - destruct fuel2 as [|fuel2]; [inversion L2|].
    cbn [decodeLoop].
    destruct (Nat.eqb (length (firstn DECODE_BLOCK_SIZE rest)) 0) eqn:E;
      [reflexivity|].
    destruct (toUnicode decoder (firstn DECODE_BLOCK_SIZE rest)) as [piece decoder'].
    f_equal.
    assert (length rest <> 0)%nat.
    { intros Z. apply length_zero_iff_nil in Z. subst rest.
      rewrite firstn_nil in E. discriminate. }
    apply IH; rewrite length_skipn; lia.
Qed.

(** The loop stops by itself: the fuel [decodeBlocks] gives it is enough,
    any greater fuel returns the same pieces. *)
Lemma decodeLoop_enough_fuel (fuel : nat) (decoder : QTextDecoder) (rest : list byte) :
  (length rest < fuel)%nat ->
  decodeLoop fuel decoder rest = decodeBlocks decoder rest.
Proof.
  intros L. unfold decodeBlocks. apply decodeLoop_fuel; lia.
Qed.

Lemma decodeBlocks_empty (decoder : QTextDecoder) : decodeBlocks decoder [] = [].
Proof.
  unfold decodeBlocks. cbn [length decodeLoop]. rewrite firstn_nil. reflexivity.
Qed.

(** *** The methods do what their summaries say *)

Lemma setSyntax_updates (d : KDefinition) :
  updates (setSyntax d) (setSyntax_window d) (fun _ => [Call_setSyntax d]).
Proof.
  intros w. unfold setSyntax, setSyntax_window. unfold_monad.
  destruct (isValid d); destruct (find _ syntaxActions); same_world.
Qed.

Lemma setEncoding_updates (name : string) :
  updates (setEncoding name) (setEncoding_window name)
    (fun _ => setEncoding_events name).
Proof.
  intros w. unfold setEncoding, setEncoding_window, setEncoding_events. unfold_monad.
  destruct (codecForName name) as [codec [|]];
    destruct (find _ encodingActions); same_world.
Qed.

Lemma setLineEndingMode_updates (mode : LineEndingMode) :
  updates (setLineEndingMode mode) (setLineEndingMode_window mode)
    (fun _ => [Call_setLineEndingMode mode]).
Proof.
  intros w. unfold setLineEndingMode, setLineEndingMode_window. unfold_monad.
  destruct mode; same_world.
Qed.

Lemma updateTitle_updates :
  updates updateTitle updateTitle_window (fun _ => []).
Proof.
  intros w. unfold updateTitle, updateTitle_window, titleOf. unfold_monad.
  same_world.
Qed.

Lemma cleanChanged_updates (was_clean : bool) :
  updates (cleanChanged was_clean) (cleanChanged_window was_clean) (fun _ => []).
Proof.
  intros w. unfold cleanChanged, cleanChanged_window, updateTitle, titleOf.
  unfold_monad.
  destruct (Bool.eqb (isClean (m_undoStack (window w))) was_clean) eqn:E;
    same_world; rewrite E; reflexivity.
Qed.

Lemma QUndoStack_clear_updates :
  updates QUndoStack_clear QUndoStack_clear_window (fun _ => [UndoStack_clear]).
Proof.
  intros w. unfold QUndoStack_clear, QUndoStack_clear_window, modifyStack.
  unfold bind at 1 2. unfold emit at 1, getWindow at 1. cbv beta iota.
  destruct (command_list (m_undoStack (window _))) eqn:E.
  - simpl in E. unfold cleanChanged_window, clear_stack, ret. simpl.
    rewrite E. simpl.
    destruct w as [[ed [cmds idx ci] ] fs ans ps tr]; simpl in *. subst cmds.
    unfold isClean; simpl. rewrite Bool.eqb_reflx. reflexivity.
  - unfold bind. unfold modifyWindow at 1. rewrite cleanChanged_updates.
    simpl in E. unfold clear_stack. simpl. rewrite E.
    rewrite app_nil_r. reflexivity.
Qed.

Lemma QUndoStack_setClean_updates :
  updates QUndoStack_setClean QUndoStack_setClean_window
    (fun _ => [UndoStack_setClean]).
Proof.
  intros w. unfold QUndoStack_setClean, QUndoStack_setClean_window, modifyStack.
  unfold bind. unfold emit at 1, getWindow at 1, modifyWindow at 1.
  rewrite cleanChanged_updates. simpl. rewrite app_nil_r. reflexivity.
Qed.

(** *** The setters *)

(** C7. [setEncoding] is total and soft on an unknown name: for every name,
    the name is recorded as the current encoding, the encoding button shows
    the name when it resolves to a codec and "Invalid (name)" when it does
    not, in which case a warning is logged; nothing else of the document
    (editor, undo stack, file name, line endings) changes and no dialog is
    shown. *)
Theorem setEncoding_records_name (w : World) (name : string) :
  let w' := snd (setEncoding name w) in
  m_textEncoding (window w') = name /\
  m_encodingButton (window w') =
    (if snd (codecForName name) then name else "Invalid (" ++ name ++ ")") /\
  events_since w w' =
    (if snd (codecForName name) then [Call_setEncoding name]
     else [Call_setEncoding name; Log_qWarning "Invalid codec selected"]) /\
  m_editor (window w') = m_editor (window w) /\
  m_undoStack (window w') = m_undoStack (window w) /\
  m_openFilename (window w') = m_openFilename (window w) /\
  m_lineEndingMode (window w') = m_lineEndingMode (window w).
Proof.
  unfold setEncoding. unfold_monad.
  destruct (codecForName name) as [codec ok]; simpl.
  destruct ok; simpl;
    destruct (find _ encodingActions); simpl;
    repeat split; apply events_since_app; simpl; flat_trace; reflexivity.
Qed.

(** *** Changes asked for by the user *)

(** C1. [changeEncoding] and [changeLineEndingMode] on a document without a
    file name are the plain setters: the field is set, nothing is pushed and
    the undo stack is what it was.  On a document with a file name each
    pushes exactly one metadata command, which carries the old and the new
    value: the stack is the commands up to the index followed by that
    command, the index has advanced by one, and the command has been
    executed, so the field holds the new value. *)
Theorem changeEncoding_changeLineEndingMode_history
    (w : World) (name : string) (mode : LineEndingMode) :
  let s := m_undoStack (window w) in
  let we := snd (changeEncoding name w) in
  let wl := snd (changeLineEndingMode mode w) in
  if isEmpty (m_openFilename (window w)) then
    changeEncoding name w = setEncoding name w /\
    changeLineEndingMode mode w = setLineEndingMode mode w /\
    m_textEncoding (window we) = name /\
    m_lineEndingMode (window wl) = mode /\
    pushes (events_since w we) = [] /\
    pushes (events_since w wl) = [] /\
    m_undoStack (window we) = s /\
    m_undoStack (window wl) = s
  else
    let ce := ChangeEncodingCommand (m_textEncoding (window w)) name in
    let cl := ChangeLineEndingCommand (m_lineEndingMode (window w)) mode in
    pushes (events_since w we) = [ce] /\
    pushes (events_since w wl) = [cl] /\
    command_list (m_undoStack (window we)) = (firstn (index s) (command_list s) ++ [ce])%list /\
    command_list (m_undoStack (window wl)) = (firstn (index s) (command_list s) ++ [cl])%list /\
    index (m_undoStack (window we)) = S (index s) /\
    index (m_undoStack (window wl)) = S (index s) /\
    m_textEncoding (window we) = name /\
    m_lineEndingMode (window wl) = mode.
Proof.
  unfold changeEncoding, changeLineEndingMode, addUndoCommand, QUndoStack_push,
    command_redo, cleanChanged, updateTitle, setEncoding, setLineEndingMode.
  unfold_monad. simpl.
  destruct (isEmpty (m_openFilename (window w))); simpl.
  - destruct (codecForName name) as [codec ok]; simpl.
    repeat split; split_tests; try reflexivity; since; split_tests; reflexivity.
  - destruct (codecForName name) as [codec ok]; simpl.
    repeat split; split_tests; try reflexivity; since; split_tests; reflexivity.
Qed.

(** Runs the next method of a straight-line goal by its summary. *)
Ltac step :=
  first [ rewrite setEncoding_updates | rewrite setLineEndingMode_updates
        | rewrite setSyntax_updates | rewrite QUndoStack_clear_updates
        | rewrite QUndoStack_setClean_updates | rewrite updateTitle_updates ];
  simpl.

(** [loadDocumentFrom], case by case: the file cannot be opened; the file is
    large and the user declines; the file is loaded, after the question when
    it is large. *)
Lemma loadDocumentFrom_run (w : World) (filename textEncoding : string) :
  loadDocumentFrom filename textEncoding w =
    match files w filename with
    | None =>
        (false,
         set_trace (trace w ++ [MessageBox_critical
                                  ("Cannot open file " ++ filename ++ " for reading")]) w)
    | Some file =>
        let loaded w0 :=
          set_trace (trace w0 ++ loaded_events (files w) file filename textEncoding)
            (set_window (loaded_window (files w) file filename textEncoding (window w)) w0) in
        if LARGE_FILE_SIZE <? file_size file then
          let asked :=
            set_answers (tl (answers w))
              (set_trace (trace w ++ [MessageBox_question largeFileWarning [Yes; No]]) w) in
          if StandardButton_eqb (nextAnswer [Yes; No] w) No then (false, asked)
          else (true, loaded asked)
        else (true, loaded w)
    end.
Proof.
  unfold loadDocumentFrom. unfold bind at 1. unfold getFiles. cbv beta iota.
  destruct (files w filename) as [file|]; [|reflexivity].
  match goal with
  | |- context [if _ then ret false else ?tail] =>
      assert (straight : forall w0 : World,
        tail w0 =
          (true,
           set_trace (trace w0 ++ loaded_events (files w) file filename textEncoding)
             (set_window (loaded_window (files w) file filename textEncoding (window w0))
                w0)))
  end.
  { intros w0.
    unfold loaded_window, loaded_events, decodedText, effectiveCodec, resolvedSyntax,
      detected.
    unfold bind, emit, modifyEditor, modifyWindow, ret.
    destruct (isEmpty textEncoding); simpl;
      [| destruct (codecForName textEncoding) as [codec [|]]; simpl ];
      (destruct (isValid (definitionForFileMagic (files w) filename)) eqn:M; simpl;
       [| destruct (isValid (definitionForFileName filename)) eqn:N; simpl ]);
      generalize (detect (QFile_read file 0 DETECTION_SIZE) filename); intros det;
      match goal with
      | |- context [String.concat "" ?pieces] =>
          generalize (String.concat "" pieces); intros text
      end;
      repeat step; rewrite ?M, ?N; repeat step.
    all: rewrite <- ?app_assoc; normal_world; reflexivity. }
  unfold bind at 1.
  destruct (LARGE_FILE_SIZE <? file_size file).
  - unfold question, bind at 1 2, emit at 1, ret at 1. cbv beta iota.
    change (nextAnswer [Yes; No] (set_trace ?t w)) with (nextAnswer [Yes; No] w).
    destruct (StandardButton_eqb (nextAnswer [Yes; No] w) No); [reflexivity|].
    rewrite straight. reflexivity.
  - unfold ret at 1. cbv beta iota. rewrite straight. reflexivity.
Qed.

(** What a load that returns [true] has done: the file was there, the window
    is the loaded window, and the events are the question, when the file is
    large, followed by the events of the pipeline. *)
Lemma loadDocumentFrom_success (w : World) (filename textEncoding : string) :
  fst (loadDocumentFrom filename textEncoding w) = true ->
  exists file : QFileData,
    files w filename = Some file /\
    window (snd (loadDocumentFrom filename textEncoding w)) =
      loaded_window (files w) file filename textEncoding (window w) /\
    events_since w (snd (loadDocumentFrom filename textEncoding w)) =
      ((if LARGE_FILE_SIZE <? file_size file
        then [MessageBox_question largeFileWarning [Yes; No]] else [])
       ++ loaded_events (files w) file filename textEncoding)%list.
Proof.
  rewrite loadDocumentFrom_run.
  destruct (files w filename) as [file|]; [|discriminate].
  cbv zeta.
  destruct (LARGE_FILE_SIZE <? file_size file) eqn:L.
  - destruct (StandardButton_eqb (nextAnswer [Yes; No] w) No); [discriminate|].
    intros _. exists file. rewrite L. repeat split.
    apply events_since_app. simpl. rewrite <- app_assoc. reflexivity.
  - intros _. exists file. rewrite L. repeat split.
    apply events_since_app. reflexivity.
Qed.

(** The fields of the loaded window. *)
Lemma loaded_window_fields (fs : FileSystem) (file : QFileData)
    (filename textEncoding : string) (win : QTextPadWindow) :
  let win' := loaded_window fs file filename textEncoding win in
  let det := detected file filename in
  let d := resolvedSyntax fs filename in
  command_list (m_undoStack win') = [] /\
  isClean (m_undoStack win') = true /\
  plainText (m_editor win') = decodedText file filename textEncoding /\
  syntax (m_editor win') = (if isValid d then d else nullSyntax) /\
  documentUndo (m_editor win') = [] /\
  documentRedo (m_editor win') = [] /\
  m_textEncoding win' = codec_name (effectiveCodec textEncoding det) /\
  m_lineEndingMode win' = lineEndings det /\
  m_openFilename win' = filename /\
  m_documentTitle win' = fileName filename /\
  m_syntaxButton win' = (if isValid d then translatedName d else "Plain Text").
Proof.
  unfold loaded_window. cbv zeta.
  destruct (isValid (resolvedSyntax fs filename)) eqn:V;
    normal_world; rewrite ?V; repeat split; apply Z.eqb_refl.
Qed.

(** Filters the events of a load, test by test. *)
Ltac filter_events :=
  unfold loaded_events, setEncoding_events; cbv zeta;
  rewrite ?filter_app; simpl;
  repeat match goal with
    | |- context [if ?c then _ else _] => destruct c eqn:?; simpl
    end.

(** *** Loading *)

(** C2. After a load that succeeds, whatever the document was before, the
    undo stack has no command, is clean, and [isDocumentModified] is false,
    and the document's own undo and redo stacks are empty; what is done to
    the editor is, in this order: clear, set the syntax to none, replace the
    content, clear the document's undo and redo stacks, and only then set
    the syntax that was resolved, if there is one. *)
Theorem loadDocumentFrom_resets_history
    (w : World) (filename textEncoding : string) :
  fst (loadDocumentFrom filename textEncoding w) = true ->
  let w' := snd (loadDocumentFrom filename textEncoding w) in
  let ed := m_editor (window w') in
  command_list (m_undoStack (window w')) = [] /\
  isClean (m_undoStack (window w')) = true /\
  isDocumentModified (window w') = false /\
  documentUndo ed = [] /\
  documentRedo ed = [] /\
  filter isEditorEvent (events_since w w') =
    ([Editor_clear; Call_setSyntax nullSyntax; Editor_setPlainText (plainText ed);
      Document_clearUndoRedoStacks]
     ++ (if isValid (syntax ed) then [Call_setSyntax (syntax ed)] else []))%list.
Proof.
  intros S. destruct (loadDocumentFrom_success _ _ _ S) as (file & F & W & E).
  cbv zeta. rewrite W, E. unfold isDocumentModified.
  destruct (loaded_window_fields (files w) file filename textEncoding (window w))
    as (L & C & T & Y & U & R & _).
  rewrite L, C, T, Y, U, R. repeat split.
  destruct (isValid (resolvedSyntax (files w) filename)) eqn:V.
  - rewrite V. filter_events; try reflexivity; congruence.
  - filter_events; try reflexivity; congruence.
Qed.

(** C3. In a load that succeeds, when the given encoding is not empty and
    [codecForName] knows it, the codec it returns is the one in effect: its
    name is what [setEncoding] is called with, once, and the content is what
    its decoder makes of the file.  When the given encoding is empty or
    unknown, the same holds of the detector's codec. *)
Theorem loadDocumentFrom_effective_codec
    (w : World) (filename textEncoding : string) (file : QFileData) :
  files w filename = Some file ->
  fst (loadDocumentFrom filename textEncoding w) = true ->
  let w' := snd (loadDocumentFrom filename textEncoding w) in
  let det := detect (QFile_read file 0 DETECTION_SIZE) filename in
  let inEffect codec :=
    filter isCall_setEncoding (events_since w w') = [Call_setEncoding (codec_name codec)] /\
    m_textEncoding (window w') = codec_name codec /\
    plainText (m_editor (window w')) =
      String.concat ""
        (decodeBlocks (makeDecoder codec) (skipn (bomOffset det) (file_data file))) in
  (textEncoding <> "" -> snd (codecForName textEncoding) = true ->
   inEffect (fst (codecForName textEncoding))) /\
  (textEncoding = "" \/ snd (codecForName textEncoding) = false ->
   inEffect (textCodec det)).
Proof.
  intros F S. destruct (loadDocumentFrom_success _ _ _ S) as (file' & F' & W & E).
  rewrite F in F'. injection F' as <-.
  cbv zeta. rewrite W, E.
  destruct (loaded_window_fields (files w) file filename textEncoding (window w))
    as (_ & _ & T & _ & _ & _ & N & _).
  rewrite T, N. unfold decodedText, detected.
  assert (calls :
    filter isCall_setEncoding
      ((if LARGE_FILE_SIZE <? file_size file
        then [MessageBox_question largeFileWarning [Yes; No]] else [])
       ++ loaded_events (files w) file filename textEncoding) =
    [Call_setEncoding
       (codec_name (effectiveCodec textEncoding
                      (detect (QFile_read file 0 DETECTION_SIZE) filename)))]).
  { filter_events; reflexivity. }
  rewrite calls. unfold effectiveCodec. split.
  - intros NE OK. apply isEmpty_false in NE. rewrite NE, OK. simpl. repeat split.
  - intros [EM | KO].
    + apply isEmpty_true in EM. rewrite EM. simpl. repeat split.
    + rewrite KO, andb_false_r. repeat split.
Qed.

(** C4. When the file can be opened, the only dialog of a load is the
    large-file question, and it is shown exactly when the size of the file
    is greater than [LARGE_FILE_SIZE]: not at 10 MiB, but at one byte
    more.  When the user answers No, the load returns [false] and the window
    is what it was. *)
Theorem loadDocumentFrom_large_file_gate
    (w : World) (filename textEncoding : string) (file : QFileData) :
  files w filename = Some file ->
  let r := loadDocumentFrom filename textEncoding w in
  let asked := [MessageBox_question largeFileWarning [Yes; No]] in
  dialogs (events_since w (snd r)) =
    (if LARGE_FILE_SIZE <? file_size file then asked else []) /\
  (dialogs (events_since w (snd r)) = asked <-> 10 * 1024 * 1024 < file_size file) /\
  (file_size file = 10 * 1024 * 1024 -> dialogs (events_since w (snd r)) = []) /\
  (file_size file = 10 * 1024 * 1024 + 1 -> dialogs (events_since w (snd r)) = asked) /\
  (LARGE_FILE_SIZE < file_size file -> nextAnswer [Yes; No] w = No ->
   fst r = false /\ window (snd r) = window w /\ files (snd r) = files w).
Proof.
  intros F. cbv zeta.
  assert (D : dialogs (events_since w (snd (loadDocumentFrom filename textEncoding w))) =
              (if LARGE_FILE_SIZE <? file_size file
               then [MessageBox_question largeFileWarning [Yes; No]] else [])).
  { rewrite loadDocumentFrom_run, F. cbv zeta. unfold dialogs.
    destruct (LARGE_FILE_SIZE <? file_size file).
    - destruct (StandardButton_eqb (nextAnswer [Yes; No] w) No).
      + since. reflexivity.
      + erewrite events_since_app
          by (simpl; rewrite <- app_assoc; reflexivity).
        filter_events; reflexivity.
    - erewrite events_since_app by reflexivity.
      filter_events; reflexivity. }
  rewrite D. unfold LARGE_FILE_SIZE. split; [reflexivity|]. split; [|split; [|split]].
  - destruct (Z.ltb_spec (10 * 1024 * 1024) (file_size file)); split;
      intros; try reflexivity; try discriminate; lia.
  - intros ->. reflexivity.
  - intros ->. reflexivity.
  - intros L A. rewrite loadDocumentFrom_run, F. cbv zeta.
    apply Z.ltb_lt in L. unfold LARGE_FILE_SIZE. rewrite L, A. simpl. repeat split.
Qed.

(** C5, as the code has it.  In a load that succeeds, the two setters are
    called once each, and [setLineEndingMode], with the detector's line
    ending, is called first; [setEncoding], with the name of the codec in
    effect, follows. *)
Theorem loadDocumentFrom_setter_order
    (w : World) (filename textEncoding : string) (file : QFileData) :
  files w filename = Some file ->
  fst (loadDocumentFrom filename textEncoding w) = true ->
  let evs := events_since w (snd (loadDocumentFrom filename textEncoding w)) in
  let det := detect (QFile_read file 0 DETECTION_SIZE) filename in
  filter isSetterCall evs =
    [Call_setLineEndingMode (lineEndings det);
     Call_setEncoding (codec_name (effectiveCodec textEncoding det))] /\
  happensBefore isCall_setLineEndingMode isCall_setEncoding evs = true /\
  happensBefore isCall_setEncoding isCall_setLineEndingMode evs = false.
Proof.
  intros F S. destruct (loadDocumentFrom_success _ _ _ S) as (file' & F' & _ & E).
  rewrite F in F'. injection F' as <-.
  cbv zeta. rewrite E. unfold detected, happensBefore.
  filter_events; repeat split.
Qed.

(** C6. In a load that succeeds, the definition found from the content of
    the file is the syntax when it is valid; the definition by file name is
    looked up only when it is not, and is the syntax when it is valid; when
    neither is valid, the syntax is none and the button says so. *)
Theorem loadDocumentFrom_syntax_precedence
    (w : World) (filename textEncoding : string) :
  fst (loadDocumentFrom filename textEncoding w) = true ->
  let w' := snd (loadDocumentFrom filename textEncoding w) in
  let byContent := definitionForFileMagic (files w) filename in
  let byName := definitionForFileName filename in
  syntax (m_editor (window w')) =
    (if isValid byContent then byContent
     else if isValid byName then byName else nullSyntax) /\
  filter isLookup (events_since w w') =
    Lookup_definitionForFileMagic filename ::
    (if isValid byContent then [] else [Lookup_definitionForFileName filename]) /\
  m_syntaxButton (window w') =
    (if isValid byContent then translatedName byContent
     else if isValid byName then translatedName byName else "Plain Text").
Proof.
  intros S. destruct (loadDocumentFrom_success _ _ _ S) as (file & F & W & E).
  cbv zeta. rewrite W, E.
  destruct (loaded_window_fields (files w) file filename textEncoding (window w))
    as (_ & _ & _ & Y & _ & _ & _ & _ & _ & _ & B).
  rewrite Y, B. unfold resolvedSyntax.
  destruct (isValid (definitionForFileMagic (files w) filename)) eqn:M.
  - rewrite M. repeat split. filter_events; congruence.
  - repeat split. filter_events; congruence.
Qed.

(** *** Saving *)

(** [saveDocumentTo] writes nothing: it returns [true] and the world, the
    files on disk among it, is what it was. *)
Lemma saveDocumentTo_writes_nothing (w : World) (filename : string) :
  saveDocumentTo filename w = (true, w).
Proof. reflexivity. Qed.

(** C9. After [saveDocument] or [saveDocumentAs] has returned [true], the
    file name is the path that was saved to, the title is its file name, the
    undo stack is clean, and the document's own undo and redo stacks are
    empty, so that undoing in the buffer does nothing; the text and the
    commands of the undo stack are what they were. *)
Theorem save_clears_document_undo (w : World) :
  let saved (r : bool * World) (path : string) :=
    fst r = true ->
    let win' := window (snd r) in
    path <> "" /\
    m_openFilename win' = path /\
    m_documentTitle win' = fileName path /\
    isClean (m_undoStack win') = true /\
    isDocumentModified win' = false /\
    documentUndo (m_editor win') = [] /\
    documentRedo (m_editor win') = [] /\
    document_undo (m_editor win') = m_editor win' /\
    plainText (m_editor win') = plainText (m_editor (window w)) /\
    command_list (m_undoStack win') = command_list (m_undoStack (window w)) in
  saved (saveDocument w)
    (if isEmpty (m_openFilename (window w))
     then hd "" (chosenPaths w) else m_openFilename (window w)) /\
  saved (saveDocumentAs w) (hd "" (chosenPaths w)).
Proof.
  cbv zeta. split.
  - unfold saveDocument, saveDocumentTo.
    unfold bind, emit, getWindow, getSaveFileName, nextPath, ret, modifyWindow,
      modifyEditor.
    simpl.
    destruct (isEmpty (m_openFilename (window w))) eqn:P; simpl.
    + destruct (isEmpty (hd "" (chosenPaths w))) eqn:Q; simpl; [discriminate|].
      repeat step. intros _. apply isEmpty_false in Q.
      normal_world. repeat split; try assumption. apply Z.eqb_refl.
      rewrite Z.eqb_refl. reflexivity.
    + rewrite P. simpl. repeat step. intros _. apply isEmpty_false in P.
      normal_world. repeat split; try assumption. apply Z.eqb_refl.
      rewrite Z.eqb_refl. reflexivity.
  - unfold saveDocumentAs, saveDocumentTo.
    unfold bind, emit, getWindow, getSaveFileName, nextPath, ret, modifyWindow,
      modifyEditor.
    simpl.
    destruct (isEmpty (hd "" (chosenPaths w))) eqn:Q; simpl; [discriminate|].
    repeat step. intros _. apply isEmpty_false in Q.
    normal_world. repeat split; try assumption. apply Z.eqb_refl.
    rewrite Z.eqb_refl. reflexivity.
Qed.

(** *** Prompting *)

Lemma promptForSave_unmodified (w : World) :
  isDocumentModified (window w) = false -> promptForSave w = (true, w).
Proof.
  intros C. unfold promptForSave, bind, getWindow. rewrite C. reflexivity.
Qed.

(** C10. On a document that is not modified, [promptForSave] returns [true]
    and leaves the world as it is: no dialog, no [saveDocument].  So
    [newDocument] resets the document without a dialog, a call of
    [saveDocument] or the use of an answer, and [closeEvent] accepts,
    having only stored the window size. *)
Theorem promptForSave_clean_proceeds (w : World) :
  isDocumentModified (window w) = false ->
  promptForSave w = (true, w) /\
  (let w' := snd (newDocument w) in
   filter isPromptEvent (events_since w w') = [] /\
   answers w' = answers w /\
   chosenPaths w' = chosenPaths w /\
   m_openFilename (window w') = "" /\
   m_documentTitle (window w') = "Untitled" /\
   plainText (m_editor (window w')) = "" /\
   syntax (m_editor (window w')) = nullSyntax /\
   m_textEncoding (window w') = "UTF-8" /\
   m_lineEndingMode (window w') = (if isWin32 then CRLF else LFOnly) /\
   command_list (m_undoStack (window w')) = [] /\
   isDocumentModified (window w') = false) /\
  closeEvent w = (true, set_trace (trace w ++ [Settings_setWindowSize]) w).
Proof.
  intros C. split; [apply promptForSave_unmodified, C|]. split.
  - destruct (newDocument w) as [u w'] eqn:N. unfold snd. revert N.
    unfold newDocument. unfold bind at 1. rewrite (promptForSave_unmodified w C).
    cbv beta iota. unfold negb.
    unfold bind, emit, ret, modifyWindow, modifyEditor. simpl.
    destruct isWin32; repeat step; unfold setEncoding_events;
      (destruct (snd (codecForName "UTF-8")); intros N; injection N as <- <-;
       since; normal_world; rewrite ?Z.eqb_refl; repeat split).
  - unfold closeEvent. unfold bind at 1. rewrite (promptForSave_unmodified w C).
    reflexivity.
Qed.

End Properties.

(** * More of the window

    The methods the claims leave out, and what holds of the window whatever
    the user does. *)

Section MoreProperties.

Context `{Collaborators}.

(** *** The undo stack as a window transformer *)

Lemma command_redo_updates (cmd : QUndoCommand) :
  updates (command_redo cmd) (command_redo_window cmd)
    (fun _ => command_redo_events cmd).
Proof.
  destruct cmd; simpl.
  - intros w. unfold modifyEditor, modifyWindow. same_world.
  - apply setEncoding_updates.
  - apply setLineEndingMode_updates.
Qed.

Lemma command_undo_updates (cmd : QUndoCommand) :
  updates (command_undo cmd) (command_undo_window cmd)
    (fun _ => command_undo_events cmd).
Proof.
  destruct cmd; simpl.
  - intros w. unfold modifyEditor, modifyWindow. same_world.
  - apply setEncoding_updates.
  - apply setLineEndingMode_updates.
Qed.

Lemma QUndoStack_push_updates (cmd : QUndoCommand) :
  updates (QUndoStack_push cmd) (QUndoStack_push_window cmd)
    (fun _ => UndoStack_push cmd :: command_redo_events cmd).
Proof.
  intros w. unfold QUndoStack_push, QUndoStack_push_window, push_stack, modifyStack.
  unfold bind. unfold emit at 1. rewrite command_redo_updates.
  unfold getWindow at 1, modifyWindow at 1. rewrite cleanChanged_updates.
  simpl. rewrite app_nil_r, <- app_assoc. reflexivity.
Qed.

Lemma QUndoStack_undo_updates :
  updates QUndoStack_undo QUndoStack_undo_window QUndoStack_undo_events.
Proof.
  intros w. unfold QUndoStack_undo, QUndoStack_undo_window, QUndoStack_undo_events,
    modifyStack.
  unfold bind at 1. unfold getWindow at 1. cbv beta iota zeta.
  destruct (index (m_undoStack (window w))) as [|idx].
  - unfold ret. same_world.
  - destruct (nth_error (command_list (m_undoStack (window w))) idx) as [cmd|].
    + unfold bind. rewrite command_undo_updates.
      unfold getWindow at 1, modifyWindow at 1. rewrite cleanChanged_updates.
      simpl. rewrite app_nil_r. reflexivity.
    + unfold ret. same_world.
Qed.

Lemma QUndoStack_redo_updates :
  updates QUndoStack_redo QUndoStack_redo_window QUndoStack_redo_events.
Proof.
  intros w. unfold QUndoStack_redo, QUndoStack_redo_window, QUndoStack_redo_events,
    modifyStack.
  unfold bind at 1. unfold getWindow at 1. cbv beta iota zeta.
  destruct (nth_error (command_list (m_undoStack (window w)))
              (index (m_undoStack (window w)))) as [cmd|].
  - unfold bind. rewrite command_redo_updates.
    unfold getWindow at 1, modifyWindow at 1. rewrite cleanChanged_updates.
    simpl. rewrite app_nil_r. reflexivity.
  - unfold ret. same_world.
Qed.

(** Runs the next method of a straight-line goal, the undo stack's
    included. *)
Ltac step' :=
  first [ rewrite QUndoStack_push_updates | rewrite QUndoStack_undo_updates
        | rewrite QUndoStack_redo_updates
        | rewrite setEncoding_updates | rewrite setLineEndingMode_updates
        | rewrite setSyntax_updates | rewrite QUndoStack_clear_updates
        | rewrite QUndoStack_setClean_updates | rewrite updateTitle_updates ];
  simpl.

(** Filters the events of a load, test by test. *)
Ltac filter_events' :=
  unfold loaded_events, setEncoding_events; cbv zeta;
  rewrite ?filter_app; simpl;
  repeat match goal with
    | |- context [if ?c then _ else _] => destruct c eqn:?; simpl
    end.

(** *** Saving, case by case *)

Lemma saveDocument_run (w : World) :
  saveDocument w =
    if isEmpty (savePath w) then (false, saveAsked w)
    else (true, savedWorld (savePath w) (saveAsked w)).
Proof.
  unfold saveDocument, saveDocumentTo, savePath, saveAsked, savedWorld, saved_window.
  unfold bind, emit, getWindow, getSaveFileName, nextPath, ret, modifyWindow,
    modifyEditor.
  simpl.
  destruct (isEmpty (m_openFilename (window w))) eqn:P; simpl.
  - destruct (isEmpty (hd "" (chosenPaths w))) eqn:Q; simpl.
    + rewrite <- app_assoc. reflexivity.
    + repeat step'. rewrite <- !app_assoc. normal_world. reflexivity.
  - rewrite P. simpl. repeat step'. rewrite <- !app_assoc. normal_world. reflexivity.
Qed.

Lemma saveDocumentAs_run (w : World) :
  saveDocumentAs w =
    let w1 := picked (FileDialog_getSaveFileName "Save File As") w in
    if isEmpty (hd "" (chosenPaths w)) then (false, w1)
    else (true, savedWorld (hd "" (chosenPaths w)) w1).
Proof.
  unfold saveDocumentAs, saveDocumentTo, picked, savedWorld, saved_window.
  unfold bind, emit, getWindow, getSaveFileName, nextPath, ret, modifyWindow,
    modifyEditor.
  simpl.
  destruct (isEmpty (hd "" (chosenPaths w))) eqn:Q; simpl.
  - reflexivity.
  - repeat step'. rewrite <- !app_assoc. normal_world. reflexivity.
Qed.

Lemma saveDocumentCopy_run (w : World) :
  saveDocumentCopy w =
    (negb (isEmpty (hd "" (chosenPaths w))),
     picked (FileDialog_getSaveFileName "Save Copy As") w).
Proof.
  unfold saveDocumentCopy, saveDocumentTo, picked.
  unfold bind, emit, getSaveFileName, nextPath, ret. simpl.
  destruct (isEmpty (hd "" (chosenPaths w))); reflexivity.
Qed.

(** *** Prompting, case by case *)

Lemma promptForSave_run (w : World) :
  promptForSave w =
    if isDocumentModified (window w) then
      let w1 := answered (saveQuestion (window w)) [Yes; No; Cancel] w in
      match nextAnswer [Yes; No; Cancel] w with
      | Cancel => (false, w1)
      | Yes => saveDocument w1
      | No => (true, w1)
      end
    else (true, w).
Proof.
  unfold promptForSave, answered, saveQuestion, question.
  unfold bind, getWindow, emit, ret. simpl.
  destruct (isDocumentModified (window w)); [|reflexivity].
  change (nextAnswer [Yes; No; Cancel] (set_trace ?t w))
    with (nextAnswer [Yes; No; Cancel] w).
  destruct (nextAnswer [Yes; No; Cancel] w); reflexivity.
Qed.

Lemma newDocument_run (w : World) :
  newDocument w =
    if fst (promptForSave w) then (tt, newWorld (snd (promptForSave w)))
    else (tt, snd (promptForSave w)).
Proof.
  unfold newDocument. unfold bind at 1.
  destruct (promptForSave w) as [[|] w1]; [|reflexivity].
  unfold fst, snd, negb, newWorld, new_window, new_events.
  unfold bind, emit, ret, modifyWindow, modifyEditor. simpl.
  destruct isWin32; repeat step'; unfold setEncoding_events;
    rewrite <- ?app_assoc; normal_world; reflexivity.
Qed.

Lemma closeEvent_run (w : World) :
  closeEvent w =
    if fst (promptForSave w)
    then (true, set_trace (trace (snd (promptForSave w)) ++ [Settings_setWindowSize])
                  (snd (promptForSave w)))
    else (false, snd (promptForSave w)).
Proof.
  unfold closeEvent. unfold bind at 1.
  destruct (promptForSave w) as [[|] w1]; reflexivity.
Qed.

Lemma loadDocument_run (w : World) :
  loadDocument w =
    let startPath :=
      if isEmpty (m_openFilename (window w)) then ""
      else absolutePath (m_openFilename (window w)) in
    let w1 := picked (FileDialog_getOpenFileName "Load File" startPath) w in
    if isEmpty (hd "" (chosenPaths w)) then (false, w1)
    else loadDocumentFrom (hd "" (chosenPaths w)) "" w1.
Proof.
  unfold loadDocument, picked.
  unfold bind at 1 2. unfold getWindow, getOpenFileName. unfold bind at 1.
  unfold emit, nextPath, ret. simpl.
  destruct (isEmpty (m_openFilename (window w))); simpl;
    destruct (isEmpty (hd "" (chosenPaths w))); reflexivity.
Qed.

Lemma reloadDocument_run (w : World) :
  reloadDocument w =
    if isDocumentModified (window w) then
      let w1 := answered (discardQuestion (window w)) [Yes; No] w in
      match nextAnswer [Yes; No] w with
      | No => (false, w1)
      | _ => loadDocumentFrom (m_openFilename (window w)) "" w1
      end
    else loadDocumentFrom (m_openFilename (window w)) "" w.
Proof.
  unfold reloadDocument, answered, discardQuestion, question.
  unfold bind at 1 2. unfold getWindow. cbv beta iota.
  destruct (isDocumentModified (window w)); [|reflexivity].
  unfold bind, emit, ret. simpl.
  change (nextAnswer [Yes; No] (set_trace ?t w)) with (nextAnswer [Yes; No] w).
  destruct (nextAnswer [Yes; No] w); reflexivity.
Qed.

(** *** The consistent window, step by step *)

Lemma consistent_setSyntax (d : KDefinition) (win : QTextPadWindow) :
  consistent win -> consistent (setSyntax_window d win).
Proof.
  intros [].
  constructor; unfold setSyntax_window; normal_world; try assumption.
  - reflexivity.
  - intros a F. rewrite F. reflexivity.
Qed.

Lemma consistent_setEncoding (name : string) (win : QTextPadWindow) :
  consistent win -> consistent (setEncoding_window name win).
Proof.
  intros [].
  constructor; unfold setEncoding_window; normal_world; try assumption; reflexivity.
Qed.

Lemma consistent_setLineEndingMode (mode : LineEndingMode) (win : QTextPadWindow) :
  consistent win -> consistent (setLineEndingMode_window mode win).
Proof.
  intros [].
  constructor; unfold setLineEndingMode_window; normal_world; try assumption;
    reflexivity.
Qed.

(** A change of the editor that keeps the syntax. *)
Lemma consistent_editor (ed : SyntaxTextEdit) (win : QTextPadWindow) :
  syntax ed = syntax (m_editor win) ->
  consistent win -> consistent (set_m_editor ed win).
Proof.
  intros S [].
  constructor; normal_world; try assumption.
  - change (m_syntaxButton win = syntaxLabel (syntax ed)). rewrite S. assumption.
  - change (forall a,
              find (fun actionDef => KDefinition_eqb actionDef (syntax ed))
                syntaxActions = Some a -> m_syntaxActions win = Some a).
    rewrite S. assumption.
Qed.

Lemma syntax_document_undo (ed : SyntaxTextEdit) :
  syntax (document_undo ed) = syntax ed.
Proof.
  unfold document_undo. destruct (documentUndo ed) as [|[] ?]; reflexivity.
Qed.

Lemma syntax_document_redo (ed : SyntaxTextEdit) :
  syntax (document_redo ed) = syntax ed.
Proof.
  unfold document_redo. destruct (documentRedo ed) as [|[] ?]; reflexivity.
Qed.

Lemma consistent_command_redo (cmd : QUndoCommand) (win : QTextPadWindow) :
  consistent win -> consistent (command_redo_window cmd win).
Proof.
  destruct cmd; simpl.
  - apply consistent_editor, syntax_document_redo.
  - apply consistent_setEncoding.
  - apply consistent_setLineEndingMode.
Qed.

Lemma consistent_command_undo (cmd : QUndoCommand) (win : QTextPadWindow) :
  consistent win -> consistent (command_undo_window cmd win).
Proof.
  destruct cmd; simpl.
  - apply consistent_editor, syntax_document_undo.
  - apply consistent_setEncoding.
  - apply consistent_setLineEndingMode.
Qed.

Lemma stack_command_redo (cmd : QUndoCommand) (win : QTextPadWindow) :
  m_undoStack (command_redo_window cmd win) = m_undoStack win /\
  m_openFilename (command_redo_window cmd win) = m_openFilename win.
Proof. destruct cmd; split; reflexivity. Qed.

Lemma stack_command_undo (cmd : QUndoCommand) (win : QTextPadWindow) :
  m_undoStack (command_undo_window cmd win) = m_undoStack win /\
  m_openFilename (command_undo_window cmd win) = m_openFilename win.
Proof. destruct cmd; split; reflexivity. Qed.

(** A change of the undo stack that is followed by [cleanChanged]. *)
Lemma consistent_stack (s : QUndoStack) (win : QTextPadWindow) :
  consistent win ->
  stack_ok s ->
  (m_openFilename win = "" -> forallb isTextCommand (command_list s) = true) ->
  consistent (cleanChanged_window (isClean (m_undoStack win)) (set_m_undoStack s win)).
Proof.
  intros [] OK T.
  constructor; unfold cleanChanged_window; try (normal_world; assumption).
  cbn [windowTitle set_windowTitle m_undoStack set_m_undoStack].
  match goal with
  | |- _ = titleOf (set_windowTitle ?t ?w) => change (titleOf (set_windowTitle t w))
                                                with (titleOf w)
  end.
  destruct (Bool.eqb (isClean s) (isClean (m_undoStack win))) eqn:E;
    [|reflexivity].
  apply Bool.eqb_prop in E. rewrite c_title0.
  unfold titleOf, isDocumentModified.
  cbn [m_undoStack set_m_undoStack m_documentTitle]. rewrite E. reflexivity.
Qed.

Lemma was_clean_after_truncation (i : nat) (c : Z) :
  ((if Z.of_nat i <? c then -1 else c) =? Z.of_nat i) = (c =? Z.of_nat i).
Proof.
  destruct (Z.ltb_spec (Z.of_nat i) c);
    destruct (Z.eqb_spec c (Z.of_nat i)); try lia;
    destruct (Z.eqb_spec (-1) (Z.of_nat i)); try lia; reflexivity.
Qed.

Lemma forallb_firstn {A : Type} (p : A -> bool) (n : nat) (l : list A) :
  forallb p l = true -> forallb p (firstn n l) = true.
Proof.
  revert n. induction l as [|a l IH]; intros [|n] F; simpl in *; try reflexivity.
  apply andb_true_iff in F as [Fa Fl]. rewrite Fa. simpl. apply IH, Fl.
Qed.

Lemma consistent_push (cmd : QUndoCommand) (win : QTextPadWindow) :
  consistent win ->
  (m_openFilename win = "" -> isTextCommand cmd = true) ->
  consistent (QUndoStack_push_window cmd win).
Proof.
  intros C T. unfold QUndoStack_push_window. cbv zeta.
  rewrite was_clean_after_truncation.
  pose proof (consistent_command_redo cmd win C) as C1.
  destruct (stack_command_redo cmd win) as [S N].
  change (clean_index (m_undoStack (command_redo_window cmd win))
          =? Z.of_nat (index (m_undoStack (command_redo_window cmd win))))
    with (isClean (m_undoStack (command_redo_window cmd win))).
  apply consistent_stack; [exact C1 | |].
  - unfold stack_ok, push_stack. cbn [index command_list].
    rewrite S, length_app, length_firstn. simpl.
    pose proof (c_stack win C) as OK. unfold stack_ok in OK. lia.
  - rewrite N, S. intros E. unfold push_stack. cbn [command_list].
    rewrite forallb_app, forallb_firstn by (apply (c_silent win C), E).
    simpl. rewrite (T E). reflexivity.
Qed.

Lemma consistent_undo (win : QTextPadWindow) :
  consistent win -> consistent (QUndoStack_undo_window win).
Proof.
  intros C. unfold QUndoStack_undo_window. cbv zeta.
  destruct (index (m_undoStack win)) as [|idx] eqn:I; [exact C|].
  destruct (nth_error (command_list (m_undoStack win)) idx) as [cmd|] eqn:N;
    [|exact C].
  pose proof (consistent_command_undo cmd win C) as C1.
  destruct (stack_command_undo cmd win) as [S F].
  apply consistent_stack; [exact C1 | |].
  - unfold stack_ok. cbn [index command_list]. rewrite S.
    pose proof (c_stack win C) as OK. unfold stack_ok in OK. lia.
  - rewrite F, S. cbn [command_list]. apply (c_silent win C).
Qed.

Lemma consistent_redo (win : QTextPadWindow) :
  consistent win -> consistent (QUndoStack_redo_window win).
Proof.
  intros C. unfold QUndoStack_redo_window. cbv zeta.
  destruct (nth_error (command_list (m_undoStack win)) (index (m_undoStack win)))
    as [cmd|] eqn:N; [|exact C].
  pose proof (consistent_command_redo cmd win C) as C1.
  destruct (stack_command_redo cmd win) as [S F].
  apply consistent_stack; [exact C1 | |].
  - unfold stack_ok. cbn [index command_list]. rewrite S.
    assert (index (m_undoStack win) < length (command_list (m_undoStack win)))%nat
      by (apply nth_error_Some; congruence).
    lia.
  - rewrite F, S. cbn [command_list]. apply (c_silent win C).
Qed.

Lemma stack_ok_clear (s : QUndoStack) : stack_ok s -> stack_ok (clear_stack s).
Proof.
  unfold stack_ok, clear_stack. cbn [index command_list length].
  destruct (command_list s); simpl; lia.
Qed.

(** [newDocument] and a load leave a consistent window whatever the window
    was, as long as the index of its undo stack was within bounds. *)
Lemma consistent_new (win : QTextPadWindow) :
  stack_ok (m_undoStack win) -> consistent (new_window win).
Proof.
  intros OK. apply stack_ok_clear in OK.
  constructor; unfold new_window; cbv zeta; normal_world;
    try reflexivity; try discriminate.
  - exact OK.
  - intros a F. rewrite F. reflexivity.
Qed.

Lemma consistent_loaded (fs : FileSystem) (file : QFileData)
    (filename textEncoding : string) (win : QTextPadWindow) :
  stack_ok (m_undoStack win) -> filename <> "" ->
  consistent (loaded_window fs file filename textEncoding win).
Proof.
  intros OK NE. apply stack_ok_clear in OK. apply isEmpty_false in NE.
  constructor; unfold loaded_window; cbv zeta;
    destruct (isValid (resolvedSyntax fs filename)) eqn:V;
    normal_world; try reflexivity; try exact OK;
    try (intros; apply isEmpty_false; exact NE).
  all: try (unfold documentTitleOf; rewrite NE; reflexivity).
  all: try (unfold syntaxLabel; rewrite ?V; reflexivity).
  all: try (intros a F; rewrite ?F; try reflexivity).
  all: try (intros E; rewrite E in NE; discriminate).
Qed.

Lemma consistent_saved (path : string) (win : QTextPadWindow) :
  consistent win -> path <> "" -> consistent (saved_window path win).
Proof.
  intros [] NE. apply isEmpty_false in NE.
  constructor; unfold saved_window; cbv zeta; normal_world;
    try assumption; try reflexivity.
  - unfold documentTitleOf. rewrite NE. reflexivity.
  - intros _. apply isEmpty_false, NE.
  - intros E. rewrite E in NE. discriminate.
Qed.

(** *** The consistent window, method by method *)

Lemma updates_window (c : M unit) (f : QTextPadWindow -> QTextPadWindow)
    (evs : QTextPadWindow -> list Event) (w : World) :
  updates c f evs -> window (snd (c w)) = f (window w).
Proof. intros U. rewrite U. reflexivity. Qed.

Lemma saveDocument_consistent (w : World) :
  consistent (window w) -> consistent (window (snd (saveDocument w))).
Proof.
  intros C. rewrite saveDocument_run.
  assert (A : window (saveAsked w) = window w).
  { unfold saveAsked. destruct (isEmpty (m_openFilename (window w))); reflexivity. }
  destruct (isEmpty (savePath w)) eqn:E; cbn [snd].
  - rewrite A. exact C.
  - unfold savedWorld. cbn [window set_trace set_window]. rewrite A.
    apply consistent_saved; [exact C | apply isEmpty_false, E].
Qed.

Lemma saveDocumentAs_consistent (w : World) :
  consistent (window w) -> consistent (window (snd (saveDocumentAs w))).
Proof.
  intros C. rewrite saveDocumentAs_run. cbv zeta.
  destruct (isEmpty (hd "" (chosenPaths w))) eqn:E; cbn [snd].
  - exact C.
  - apply consistent_saved; [exact C | apply isEmpty_false, E].
Qed.

Lemma promptForSave_consistent (w : World) :
  consistent (window w) -> consistent (window (snd (promptForSave w))).
Proof.
  intros C. rewrite promptForSave_run.
  destruct (isDocumentModified (window w)); [|exact C]. cbv zeta.
  destruct (nextAnswer [Yes; No; Cancel] w); try exact C.
  apply saveDocument_consistent. exact C.
Qed.

Lemma newDocument_consistent (w : World) :
  consistent (window w) -> consistent (window (snd (newDocument w))).
Proof.
  intros C. rewrite newDocument_run.
  pose proof (promptForSave_consistent w C) as C1.
  destruct (fst (promptForSave w)); cbn [snd]; [|exact C1].
  apply consistent_new, (c_stack _ C1).
Qed.

Lemma closeEvent_consistent (w : World) :
  consistent (window w) -> consistent (window (snd (closeEvent w))).
Proof.
  intros C. rewrite closeEvent_run.
  pose proof (promptForSave_consistent w C) as C1.
  destruct (fst (promptForSave w)); exact C1.
Qed.

Lemma loadDocumentFrom_consistent (w : World) (filename textEncoding : string) :
  filename <> "" -> consistent (window w) ->
  consistent (window (snd (loadDocumentFrom filename textEncoding w))).
Proof.
  intros NE C. rewrite loadDocumentFrom_run.
  destruct (files w filename) as [file|]; [|exact C]. cbv zeta.
  destruct (LARGE_FILE_SIZE <? file_size file).
  - destruct (StandardButton_eqb (nextAnswer [Yes; No] w) No); cbn [snd];
      [exact C|].
    apply consistent_loaded; [apply (c_stack _ C) | exact NE].
  - apply consistent_loaded; [apply (c_stack _ C) | exact NE].
Qed.

Lemma loadDocument_consistent (w : World) :
  consistent (window w) -> consistent (window (snd (loadDocument w))).
Proof.
  intros C. rewrite loadDocument_run. cbv zeta.
  destruct (isEmpty (hd "" (chosenPaths w))) eqn:E; [exact C|].
  apply loadDocumentFrom_consistent; [apply isEmpty_false, E | exact C].
Qed.

Lemma reloadDocument_consistent (w : World) :
  m_openFilename (window w) <> "" ->
  consistent (window w) -> consistent (window (snd (reloadDocument w))).
Proof.
  intros NE C. rewrite reloadDocument_run.
  destruct (isDocumentModified (window w)); cbv zeta.
  - destruct (nextAnswer [Yes; No] w); try exact C;
      apply loadDocumentFrom_consistent; assumption.
  - apply loadDocumentFrom_consistent; assumption.
Qed.

Lemma changeEncoding_consistent (w : World) (name : string) :
  consistent (window w) -> consistent (window (snd (changeEncoding name w))).
Proof.
  intros C. unfold changeEncoding, addUndoCommand, bind, getWindow.
  destruct (isEmpty (m_openFilename (window w))) eqn:E.
  - rewrite (updates_window _ _ _ w (setEncoding_updates name)).
    apply consistent_setEncoding, C.
  - rewrite (updates_window _ _ _ w (QUndoStack_push_updates _)).
    apply consistent_push; [exact C|].
    intros F. apply isEmpty_true in F. congruence.
Qed.

Lemma changeLineEndingMode_consistent (w : World) (mode : LineEndingMode) :
  consistent (window w) -> consistent (window (snd (changeLineEndingMode mode w))).
Proof.
  intros C. unfold changeLineEndingMode, addUndoCommand, bind, getWindow.
  destruct (isEmpty (m_openFilename (window w))) eqn:E.
  - rewrite (updates_window _ _ _ w (setLineEndingMode_updates mode)).
    apply consistent_setLineEndingMode, C.
  - rewrite (updates_window _ _ _ w (QUndoStack_push_updates _)).
    apply consistent_push; [exact C|].
    intros F. apply isEmpty_true in F. congruence.
Qed.

Lemma editText_consistent (w : World) (text : string) :
  consistent (window w) -> consistent (window (snd (editText text w))).
Proof.
  intros C. unfold editText, addUndoCommand, bind, modifyEditor, modifyWindow.
  rewrite QUndoStack_push_updates. cbn [snd window set_trace set_window].
  apply consistent_push; [|reflexivity].
  apply consistent_editor; [reflexivity | exact C].
Qed.

(** Whatever the user does, the window stays consistent. *)
Lemma trigger_consistent (a : UserAction) (w : World) :
  consistent (window w) -> consistent (window (snd (trigger a w))).
Proof.
  intros C. destruct a; unfold trigger.
  - apply editText_consistent, C.
  - apply newDocument_consistent, C.
  - unfold bind, ret. destruct (loadDocument w) eqn:L.
    change w0 with (snd (b, w0)). rewrite <- L. apply loadDocument_consistent, C.
  - unfold bind at 1. unfold getWindow.
    destruct (m_reloadAction (window w)) eqn:R; [|exact C].
    unfold bind, ret. destruct (reloadDocument w) eqn:L.
    change w0 with (snd (b, w0)). rewrite <- L.
    apply reloadDocument_consistent; [apply (c_reload _ C R) | exact C].
  - unfold bind, ret. destruct (saveDocument w) eqn:L.
    change w0 with (snd (b, w0)). rewrite <- L. apply saveDocument_consistent, C.
  - unfold bind, ret. destruct (saveDocumentAs w) eqn:L.
    change w0 with (snd (b, w0)). rewrite <- L. apply saveDocumentAs_consistent, C.
  - unfold bind, ret. rewrite saveDocumentCopy_run. exact C.
  - rewrite (updates_window _ _ _ w QUndoStack_undo_updates).
    apply consistent_undo, C.
  - rewrite (updates_window _ _ _ w QUndoStack_redo_updates).
    apply consistent_redo, C.
  - apply changeLineEndingMode_consistent, C.
  - apply changeEncoding_consistent, C.
  - rewrite (updates_window _ _ _ w (setSyntax_updates d)).
    apply consistent_setSyntax, C.
  - unfold nextLineEndingMode, bind, getWindow.
    destruct (m_lineEndingMode (window w));
      apply changeLineEndingMode_consistent, C.
  - unfold bind, ret. destruct (closeEvent w) eqn:L.
    change w0 with (snd (b, w0)). rewrite <- L. apply closeEvent_consistent, C.
Qed.

Lemma session_consistent (actions : list UserAction) (w : World) :
  consistent (window w) -> consistent (window (snd (session actions w))).
Proof.
  revert w. induction actions as [|a actions IH]; intros w C; [exact C|].
  cbn [session]. unfold bind. destruct (trigger a w) as [u w1] eqn:T.
  apply IH. change w1 with (snd (u, w1)). rewrite <- T.
  apply trigger_consistent, C.
Qed.

(** The window is consistent from the start: the constructor ends with
    [newDocument] on a window whose undo stack is new. *)
Lemma constructed_consistent (w : World) :
  constructed (window w) -> consistent (window (snd (newDocument w))).
Proof.
  intros N. rewrite newDocument_run, promptForSave_run.
  unfold isDocumentModified, isClean. rewrite N. cbn [fst snd clean_index index].
  change (negb (0 =? Z.of_nat 0)) with false. cbn [fst snd].
  unfold newWorld. cbn [window set_trace set_window].
  apply consistent_new. rewrite N. unfold stack_ok. simpl. lia.
Qed.

(** *** Loading: failure, and what is left of the window before *)

(** X1. When the file cannot be opened, [loadDocumentFrom] returns [false],
    the only thing that happens is the message box saying so, and the
    window, the answers and the paths of the user are what they were. *)
Theorem loadDocumentFrom_cannot_open
    (w : World) (filename textEncoding : string) :
  files w filename = None ->
  loadDocumentFrom filename textEncoding w =
    (false,
     set_trace
       (trace w ++ [MessageBox_critical
                      ("Cannot open file " ++ filename ++ " for reading")]) w) /\
  window (snd (loadDocumentFrom filename textEncoding w)) = window w /\
  answers (snd (loadDocumentFrom filename textEncoding w)) = answers w /\
  chosenPaths (snd (loadDocumentFrom filename textEncoding w)) = chosenPaths w.
Proof.
  intros F. rewrite loadDocumentFrom_run, F. repeat split.
Qed.

(** Destructs two windows whose undo stacks are within bounds and settles
    the index of an empty one. *)
Ltac two_windows win1 win2 OK1 OK2 :=
  destruct win1 as [ed1 [l1 i1 c1] enc1 m1 fn1 t1 sb1 eb1 cl1 sa1 ea1 la1 ra1 wt1];
  destruct win2 as [ed2 [l2 i2 c2] enc2 m2 fn2 t2 sb2 eb2 cl2 sa2 ea2 la2 ra2 wt2];
  unfold stack_ok in OK1, OK2; cbn [m_undoStack index command_list] in OK1, OK2;
  destruct l1; destruct l2; cbn [length] in OK1, OK2;
  try (assert (i1 = 0)%nat by lia; subst i1);
  try (assert (i2 = 0)%nat by lia; subst i2).

Lemma loaded_window_independent (fs : FileSystem) (file : QFileData)
    (filename textEncoding : string) (win1 win2 : QTextPadWindow) :
  stack_ok (m_undoStack win1) -> stack_ok (m_undoStack win2) ->
  loaded_window fs file filename textEncoding win1 =
  loaded_window fs file filename textEncoding win2.
Proof.
  intros OK1 OK2. two_windows win1 win2 OK1 OK2;
    unfold loaded_window; cbv zeta;
    destruct (isValid (resolvedSyntax fs filename));
    normal_world; reflexivity.
Qed.

Lemma new_window_independent (win1 win2 : QTextPadWindow) :
  stack_ok (m_undoStack win1) -> stack_ok (m_undoStack win2) ->
  new_window win1 = new_window win2.
Proof.
  intros OK1 OK2. two_windows win1 win2 OK1 OK2;
    unfold new_window; cbv zeta; normal_world; reflexivity.
Qed.

(** X2. A load that succeeds replaces the whole window: two windows whose
    undo stacks have their index within bounds, in front of the same files,
    are the same window after the same file has been loaded into each;
    nothing of the document before is left. *)
Theorem loadDocumentFrom_replaces_window
    (w1 w2 : World) (filename textEncoding : string) :
  files w1 = files w2 ->
  stack_ok (m_undoStack (window w1)) ->
  stack_ok (m_undoStack (window w2)) ->
  fst (loadDocumentFrom filename textEncoding w1) = true ->
  fst (loadDocumentFrom filename textEncoding w2) = true ->
  window (snd (loadDocumentFrom filename textEncoding w1)) =
  window (snd (loadDocumentFrom filename textEncoding w2)).
Proof.
  intros F OK1 OK2 S1 S2.
  destruct (loadDocumentFrom_success _ _ _ S1) as (file1 & F1 & W1 & _).
  destruct (loadDocumentFrom_success _ _ _ S2) as (file2 & F2 & W2 & _).
  rewrite W1, W2. rewrite F in F1. rewrite F1 in F2. injection F2 as <-.
  rewrite F. apply loaded_window_independent; assumption.
Qed.

Lemma promptForSave_stack_ok (w : World) :
  stack_ok (m_undoStack (window w)) ->
  stack_ok (m_undoStack (window (snd (promptForSave w)))).
Proof.
  intros OK. rewrite promptForSave_run.
  destruct (isDocumentModified (window w)); [|exact OK]. cbv zeta.
  destruct (nextAnswer [Yes; No; Cancel] w); try exact OK.
  rewrite saveDocument_run.
  assert (A : window (saveAsked (answered (saveQuestion (window w))
                                   [Yes; No; Cancel] w)) = window w).
  { unfold saveAsked. cbn [window answered set_answers set_trace].
    destruct (isEmpty (m_openFilename (window w))); reflexivity. }
  destruct (isEmpty _); cbn [snd].
  - rewrite A. exact OK.
  - unfold savedWorld. cbn [window set_trace set_window]. rewrite A.
    exact OK.
Qed.

(** X3. [newDocument], when it goes ahead (the document was not modified,
    or the user answered No, or Yes and the save succeeded), leaves the same
    window whatever the document was: two windows whose undo stacks have
    their index within bounds are the same window after it. *)
Theorem newDocument_replaces_window (w1 w2 : World) :
  stack_ok (m_undoStack (window w1)) ->
  stack_ok (m_undoStack (window w2)) ->
  fst (promptForSave w1) = true ->
  fst (promptForSave w2) = true ->
  window (snd (newDocument w1)) = window (snd (newDocument w2)).
Proof.
  intros OK1 OK2 P1 P2.
  rewrite !newDocument_run, P1, P2. cbn [snd].
  unfold newWorld. cbn [window set_trace set_window].
  apply new_window_independent; apply promptForSave_stack_ok; assumption.
Qed.

(** The questions of a load: the large-file warning, if any. *)
Lemma loadDocumentFrom_trace (w : World) (filename textEncoding : string) :
  exists evs : list Event,
    trace (snd (loadDocumentFrom filename textEncoding w)) = (trace w ++ evs)%list /\
    filter isQuestion evs =
      match files w filename with
      | Some file =>
          if LARGE_FILE_SIZE <? file_size file
          then [MessageBox_question largeFileWarning [Yes; No]] else []
      | None => []
      end.
Proof.
  rewrite loadDocumentFrom_run.
  destruct (files w filename) as [file|]; [|eexists; split; reflexivity].
  cbv zeta.
  destruct (LARGE_FILE_SIZE <? file_size file).
  - destruct (StandardButton_eqb (nextAnswer [Yes; No] w) No).
    + eexists. split; reflexivity.
    + eexists. split.
      * cbn [snd trace set_trace set_window set_answers]. rewrite <- app_assoc.
        reflexivity.
      * filter_events'; reflexivity.
  - eexists. split; [reflexivity|]. filter_events'; reflexivity.
Qed.

Lemma events_since_later (w w1 w' : World) (evs1 evs : list Event) :
  trace w1 = (trace w ++ evs1)%list -> trace w' = (trace w1 ++ evs)%list ->
  events_since w w' = (evs1 ++ evs)%list.
Proof.
  intros E1 E. apply events_since_app. rewrite E, E1, app_assoc. reflexivity.
Qed.

(** *** Reload, Open, Save a copy *)

(** X4. [reloadDocument] asks before it discards changes, and only then: on
    a document that is not modified it is the load of the document's own
    file; on a modified one the question about discarding comes first, No
    returns [false] with the window as it was, and any other answer is
    followed by the load. *)
Theorem reloadDocument_asks_before_discarding (w : World) :
  let r := reloadDocument w in
  let ask := MessageBox_question (discardQuestion (window w)) [Yes; No] in
  (isDocumentModified (window w) = false ->
   r = loadDocumentFrom (m_openFilename (window w)) "" w) /\
  (isDocumentModified (window w) = true ->
   (nextAnswer [Yes; No] w = No ->
    fst r = false /\ window (snd r) = window w /\ events_since w (snd r) = [ask]) /\
   (nextAnswer [Yes; No] w <> No ->
    r = loadDocumentFrom (m_openFilename (window w)) ""
          (answered (discardQuestion (window w)) [Yes; No] w) /\
    hd_error (events_since w (snd r)) = Some ask)).
Proof.
  cbv zeta. rewrite reloadDocument_run. split.
  - intros ->. reflexivity.
  - intros ->. cbv zeta. split.
    + intros ->. repeat split. apply events_since_app. reflexivity.
    + intros A.
      set (w1 := answered (discardQuestion (window w)) [Yes; No] w).
      destruct (nextAnswer [Yes; No] w); try congruence; (split; [reflexivity|]);
        destruct (loadDocumentFrom_trace w1 (m_openFilename (window w)) "")
          as (evs & T & _);
        erewrite (events_since_later w w1) by (reflexivity || exact T);
        reflexivity.
Qed.

(** X5. [loadDocument] does not ask about changes: whatever the document,
    the only question that can come up is the large-file warning.  When the
    file dialog is cancelled it returns [false] and the window is what it
    was; when it returns [true] the file picked is the document, not
    modified, whatever was typed before. *)
Theorem loadDocument_asks_no_question_about_changes (w : World) :
  let r := loadDocument w in
  (forall e, In e (filter isQuestion (events_since w (snd r))) ->
             e = MessageBox_question largeFileWarning [Yes; No]) /\
  (hd "" (chosenPaths w) = "" -> fst r = false /\ window (snd r) = window w) /\
  (fst r = true ->
   m_openFilename (window (snd r)) = hd "" (chosenPaths w) /\
   isDocumentModified (window (snd r)) = false /\
   documentUndo (m_editor (window (snd r))) = []).
Proof.
  cbv zeta. rewrite loadDocument_run. cbv zeta.
  set (e0 := FileDialog_getOpenFileName _ _).
  destruct (isEmpty (hd "" (chosenPaths w))) eqn:E.
  - split; [|split].
    + intros e. erewrite events_since_app by reflexivity. simpl. intros [].
    + intros _. split; reflexivity.
    + discriminate.
  - split; [|split].
    + intros e.
      destruct (loadDocumentFrom_trace (picked e0 w) (hd "" (chosenPaths w)) "")
        as (evs & T & Q).
      erewrite (events_since_later w (picked e0 w)) by (reflexivity || exact T).
      rewrite filter_app, Q. cbn [filter isQuestion e0 app].
      destruct (files (picked e0 w) (hd "" (chosenPaths w))) as [file|];
        [destruct (LARGE_FILE_SIZE <? file_size file)|]; simpl; intuition.
    + intros P. apply isEmpty_false in E. contradiction.
    + intros S.
      destruct (loadDocumentFrom_success _ _ _ S) as (file & F & W & _).
      rewrite W.
      destruct (loaded_window_fields (files (picked e0 w)) file
                  (hd "" (chosenPaths w)) "" (window (picked e0 w)))
        as (_ & C & _ & _ & U & _ & _ & _ & N & _).
      unfold isDocumentModified. rewrite C, U, N. repeat split.
Qed.

(** X6. [saveDocumentCopy] leaves the document alone: the window, and with
    it the file name, the undo stack and the modified flag, is what it was;
    the only event is the file dialog, and the result says whether a path
    was picked. *)
Theorem saveDocumentCopy_keeps_document (w : World) :
  let r := saveDocumentCopy w in
  window (snd r) = window w /\
  isDocumentModified (window (snd r)) = isDocumentModified (window w) /\
  events_since w (snd r) = [FileDialog_getSaveFileName "Save Copy As"] /\
  fst r = negb (isEmpty (hd "" (chosenPaths w))).
Proof.
  cbv zeta. rewrite saveDocumentCopy_run. repeat split.
  apply events_since_app. reflexivity.
Qed.

(** X7. [saveDocument] shows the file dialog exactly when the document has
    no file name.  With a file name it returns [true] and keeps the name and
    the paths of the user; without one, a cancelled dialog makes it return
    [false] with the window as it was. *)
Theorem saveDocument_file_dialog (w : World) :
  let r := saveDocument w in
  let name := m_openFilename (window w) in
  dialogs (events_since w (snd r)) =
    (if isEmpty name then [FileDialog_getSaveFileName "Save File"] else []) /\
  (name <> "" ->
   fst r = true /\ m_openFilename (window (snd r)) = name /\
   chosenPaths (snd r) = chosenPaths w) /\
  (name = "" -> hd "" (chosenPaths w) = "" ->
   fst r = false /\ window (snd r) = window w).
Proof.
  cbv zeta. rewrite saveDocument_run. unfold savePath, saveAsked, savedWorld.
  destruct (isEmpty (m_openFilename (window w))) eqn:P.
  - split; [|split].
    + destruct (isEmpty (hd "" (chosenPaths w))); unfold dialogs; since; reflexivity.
    + intros NE. apply isEmpty_true in P. contradiction.
    + intros _ ->. repeat split.
  - split; [|split].
    + rewrite P. unfold dialogs. since. reflexivity.
    + intros _. rewrite P. repeat split.
    + intros E. apply isEmpty_false in P. contradiction.
Qed.

(** *** The save prompt *)

Lemma promptForSave_refused (w : World) :
  fst (promptForSave w) = false -> window (snd (promptForSave w)) = window w.
Proof.
  rewrite promptForSave_run.
  destruct (isDocumentModified (window w)); [|discriminate]. cbv zeta.
  destruct (nextAnswer [Yes; No; Cancel] w); try reflexivity.
  rewrite saveDocument_run.
  destruct (isEmpty _); [|discriminate]. intros _. cbn [snd].
  unfold saveAsked. cbn [window answered set_answers set_trace].
  destruct (isEmpty (m_openFilename (window w))); reflexivity.
Qed.

(** X8. On a modified document [promptForSave] asks once, with the three
    buttons.  Cancel returns [false] and No returns [true], both with the
    window as it was, so still modified; Yes saves, returns what the save
    returns, and after a save that succeeded the document is not modified. *)
Theorem promptForSave_answers (w : World) :
  isDocumentModified (window w) = true ->
  let r := promptForSave w in
  let ask := MessageBox_question (saveQuestion (window w)) [Yes; No; Cancel] in
  filter isQuestion (events_since w (snd r)) = [ask] /\
  (nextAnswer [Yes; No; Cancel] w = Cancel ->
   fst r = false /\ window (snd r) = window w) /\
  (nextAnswer [Yes; No; Cancel] w = No ->
   fst r = true /\ window (snd r) = window w) /\
  (nextAnswer [Yes; No; Cancel] w = Yes ->
   r = saveDocument (answered (saveQuestion (window w)) [Yes; No; Cancel] w) /\
   (fst r = true -> isDocumentModified (window (snd r)) = false) /\
   (fst r = false -> window (snd r) = window w)).
Proof.
  intros M. cbv zeta.
  split; [|split; [|split]].
  - rewrite promptForSave_run, M. cbv zeta.
    destruct (nextAnswer [Yes; No; Cancel] w) eqn:A.
    + rewrite saveDocument_run. unfold savePath, saveAsked, savedWorld.
      cbn [window answered set_answers set_trace chosenPaths].
      destruct (isEmpty (m_openFilename (window w))) eqn:P;
        [destruct (isEmpty (hd "" (chosenPaths w))) | rewrite P]; since; reflexivity.
    + since. reflexivity.
    + since. reflexivity.
  - intros A. rewrite promptForSave_run, M, A. repeat split.
  - intros A. rewrite promptForSave_run, M, A. repeat split.
  - intros A. split; [|split].
    + rewrite promptForSave_run, M, A. reflexivity.
    + rewrite promptForSave_run, M, A. cbv zeta. rewrite saveDocument_run.
      destruct (isEmpty _); [discriminate|]. intros _.
      unfold savedWorld, saved_window, isDocumentModified. cbv zeta. normal_world.
      rewrite Z.eqb_refl. reflexivity.
    + apply promptForSave_refused.
Qed.

(** X9. When [promptForSave] returns [false] (the user cancelled the
    question, or the save it led to), nothing else happens: [newDocument]
    stops there and [closeEvent] ignores the event without storing the
    window size, and the window is what it was. *)
Theorem cancelled_prompt_stops (w : World) :
  fst (promptForSave w) = false ->
  newDocument w = (tt, snd (promptForSave w)) /\
  closeEvent w = (false, snd (promptForSave w)) /\
  window (snd (newDocument w)) = window w /\
  window (snd (closeEvent w)) = window w.
Proof.
  intros P. rewrite newDocument_run, closeEvent_run, P. cbn [snd].
  repeat split; apply promptForSave_refused, P.
Qed.

(** *** The line-ending label *)

Lemma nextLineEndingMode_once (w : World) :
  m_lineEndingMode (window (snd (nextLineEndingMode w)))
    = nextMode (m_lineEndingMode (window w)) /\
  m_crlfLabel (window (snd (nextLineEndingMode w)))
    = lineEndingLabel (nextMode (m_lineEndingMode (window w))) /\
  m_openFilename (window (snd (nextLineEndingMode w))) = m_openFilename (window w).
Proof.
  unfold nextLineEndingMode, changeLineEndingMode, addUndoCommand, bind, getWindow.
  destruct (m_lineEndingMode (window w));
    (destruct (isEmpty (m_openFilename (window w)));
     [ rewrite setLineEndingMode_updates | rewrite QUndoStack_push_updates ];
     repeat split).
Qed.

(** X10. A click on the line-ending label moves the mode one step along
    CR, LF, CRLF, CR and the label with it; three clicks bring both back.
    On a document with a file name every click is one command on the undo
    stack, on one without nothing is pushed. *)
Theorem nextLineEndingMode_cycle (w : World) :
  let w1 := snd (nextLineEndingMode w) in
  let w3 := snd ((nextLineEndingMode ;; nextLineEndingMode ;; nextLineEndingMode) w) in
  m_lineEndingMode (window w1) = nextMode (m_lineEndingMode (window w)) /\
  m_crlfLabel (window w1) = lineEndingLabel (nextMode (m_lineEndingMode (window w))) /\
  m_lineEndingMode (window w3) = m_lineEndingMode (window w) /\
  m_crlfLabel (window w3) = lineEndingLabel (m_lineEndingMode (window w)) /\
  length (pushes (events_since w w1)) =
    (if isEmpty (m_openFilename (window w)) then 0 else 1)%nat.
Proof.
  cbv zeta.
  destruct (nextLineEndingMode_once w) as (M1 & L1 & F1).
  split; [exact M1|]. split; [exact L1|].
  unfold bind.
  destruct (nextLineEndingMode w) as [u1 w1] eqn:E1. cbn [snd] in *.
  destruct (nextLineEndingMode_once w1) as (M2 & L2 & F2).
  destruct (nextLineEndingMode w1) as [u2 w2] eqn:E2. cbn [snd] in *.
  destruct (nextLineEndingMode_once w2) as (M3 & L3 & F3).
  rewrite M3, L3, M2, M1.
  split; [|split].
  - destruct (m_lineEndingMode (window w)); reflexivity.
  - destruct (m_lineEndingMode (window w)); reflexivity.
  - revert E1.
    unfold nextLineEndingMode, changeLineEndingMode, addUndoCommand, bind, getWindow.
    destruct (m_lineEndingMode (window w));
      (destruct (isEmpty (m_openFilename (window w)));
       [ rewrite setLineEndingMode_updates | rewrite QUndoStack_push_updates ];
       intros E1; injection E1 as <- <-; since; reflexivity).
Qed.

(** *** Commands and the modified flag *)

Lemma push_marks_modified (cmd : QUndoCommand) (win : QTextPadWindow) :
  isDocumentModified (QUndoStack_push_window cmd win) = true.
Proof.
  unfold QUndoStack_push_window, isDocumentModified, isClean. cbv zeta.
  unfold cleanChanged_window, push_stack.
  cbn [m_undoStack set_windowTitle set_m_undoStack clean_index index].
  destruct (stack_command_redo cmd win) as [-> _].
  apply negb_true_iff.
  destruct (Z.ltb_spec (Z.of_nat (index (m_undoStack win)))
              (clean_index (m_undoStack win))); apply Z.eqb_neq; lia.
Qed.

(** X11. Every command marks the document modified: after text is typed,
    and after [changeEncoding] or [changeLineEndingMode] on a document with
    a file name, also to the value it has already, [isDocumentModified] is
    true; and when the title was in step with the document before, it
    starts with the star after. *)
Theorem commands_mark_modified
    (w : World) (text name : string) (mode : LineEndingMode) :
  let marked (c : M unit) :=
    isDocumentModified (window (snd (c w))) = true /\
    (windowTitle (window w) = titleOf (window w) ->
     windowTitle (window (snd (c w))) =
       "* " ++ m_documentTitle (window w) ++ " " ++ ndash ++ " qtextpad") in
  marked (editText text) /\
  (m_openFilename (window w) <> "" ->
   marked (changeEncoding name) /\ marked (changeLineEndingMode mode)).
Proof.
  cbv zeta.
  assert (P : forall cmd win,
    windowTitle win = titleOf win ->
    m_documentTitle (command_redo_window cmd win) = m_documentTitle win ->
    windowTitle (command_redo_window cmd win) = windowTitle win ->
    windowTitle (QUndoStack_push_window cmd win) =
      "* " ++ m_documentTitle win ++ " " ++ ndash ++ " qtextpad").
  { intros cmd win T D W.
    pose proof (push_marks_modified cmd win) as PM. revert PM.
    unfold QUndoStack_push_window, isDocumentModified. cbv zeta.
    rewrite was_clean_after_truncation.
    unfold cleanChanged_window.
    cbn [windowTitle set_windowTitle m_undoStack set_m_undoStack].
    destruct (stack_command_redo cmd win) as [S _]. rewrite S.
    intros PM. apply negb_true_iff in PM. rewrite PM.
    change (clean_index (m_undoStack win) =? Z.of_nat (index (m_undoStack win)))
      with (isClean (m_undoStack win)).
    destruct (isClean (m_undoStack win)) eqn:C; cbn [Bool.eqb].
    - unfold titleOf, isDocumentModified.
      cbn [m_undoStack set_m_undoStack m_documentTitle]. rewrite PM, D. reflexivity.
    - rewrite W, T. unfold titleOf, isDocumentModified. rewrite C. reflexivity. }
  split; [|intros NE; apply isEmpty_false in NE; split].
  - unfold editText, addUndoCommand, bind, modifyEditor, modifyWindow.
    rewrite QUndoStack_push_updates. cbn [snd window set_trace set_window].
    split; [apply push_marks_modified|].
    intros T. rewrite P; reflexivity || exact T.
  - unfold changeEncoding, addUndoCommand, bind, getWindow. rewrite NE.
    rewrite QUndoStack_push_updates. cbn [snd window set_trace set_window].
    split; [apply push_marks_modified|].
    intros T. rewrite P; reflexivity || exact T.
  - unfold changeLineEndingMode, addUndoCommand, bind, getWindow. rewrite NE.
    rewrite QUndoStack_push_updates. cbn [snd window set_trace set_window].
    split; [apply push_marks_modified|].
    intros T. rewrite P; reflexivity || exact T.
Qed.

(** *** Undo after a save *)

Lemma nth_error_firstn_snoc {A : Type} (l : list A) (i : nat) (a : A) :
  (i <= length l)%nat -> nth_error (firstn i l ++ [a]) i = Some a.
Proof.
  intros L. rewrite nth_error_app2; rewrite length_firstn, Nat.min_l by exact L;
    [rewrite Nat.sub_diag; reflexivity | lia].
Qed.

Lemma QUndoStack_undo_window_text (win : QTextPadWindow) (i : nat) :
  index (m_undoStack win) = S i ->
  nth_error (command_list (m_undoStack win)) i = Some TextEditorUndoCommand ->
  m_editor (QUndoStack_undo_window win) = document_undo (m_editor win) /\
  m_undoStack (QUndoStack_undo_window win) =
    {| command_list := command_list (m_undoStack win); index := i;
       clean_index := clean_index (m_undoStack win) |}.
Proof.
  intros I N. unfold QUndoStack_undo_window. cbv zeta. rewrite I, N.
  split; reflexivity.
Qed.

(** X12. A save empties the document's own undo stack but keeps the commands
    of the window's undo stack, so undoing a text edit after a save does
    not bring the old text back: after typing, saving to the document's
    file and Undo, the text is still what was typed, the index of the undo
    stack is back where it was before the typing, and the document counts
    as modified. *)
Theorem undo_after_save_keeps_text (w : World) (text : string) :
  stack_ok (m_undoStack (window w)) ->
  m_openFilename (window w) <> "" ->
  let w' := snd ((editText text ;; saveDocument ;; QUndoStack_undo) w) in
  plainText (m_editor (window w')) = text /\
  index (m_undoStack (window w')) = index (m_undoStack (window w)) /\
  isDocumentModified (window w') = true.
Proof.
  intros OK NE. apply isEmpty_false in NE. cbv zeta.
  unfold editText, addUndoCommand. unfold bind.
  unfold modifyEditor, modifyWindow.
  rewrite QUndoStack_push_updates, saveDocument_run.
  unfold savePath, saveAsked.
  cbn [window set_window set_trace].
  set (typed := QUndoStack_push_window TextEditorUndoCommand
                  (set_m_editor (document_edit text (m_editor (window w))) (window w))).
  assert (F : m_openFilename typed = m_openFilename (window w)) by reflexivity.
  rewrite F, NE. cbv iota. rewrite NE. cbv iota beta.
  rewrite QUndoStack_undo_updates.
  cbn [snd window set_trace set_window savedWorld].
  set (saved := saved_window (m_openFilename (window w)) typed).
  assert (S1 : m_undoStack saved =
               setClean_stack (push_stack TextEditorUndoCommand (m_undoStack (window w))))
    by reflexivity.
  assert (E1 : m_editor saved =
               document_clearUndoRedoStacks
                 (document_redo (document_edit text (m_editor (window w)))))
    by reflexivity.
  destruct (QUndoStack_undo_window_text saved (index (m_undoStack (window w))))
    as [E2 S2].
  { rewrite S1. reflexivity. }
  { rewrite S1. cbn [setClean_stack push_stack command_list].
    apply nth_error_firstn_snoc, OK. }
  unfold isDocumentModified, isClean. rewrite E2, S2, E1, S1.
  cbn [index clean_index setClean_stack push_stack].
  repeat split.
  apply negb_true_iff, Z.eqb_neq. lia.
Qed.

(** *** What holds of the window whatever the user does *)

Lemma afterSession_consistent (actions : list UserAction) (w : World) :
  constructed (window w) -> consistent (window (afterSession actions w)).
Proof.
  intros N. unfold afterSession, bind.
  destruct (newDocument w) as [u w1] eqn:E.
  apply session_consistent. change w1 with (snd (u, w1)). rewrite <- E.
  apply constructed_consistent, N.
Qed.

(** X13. The title follows the document: after the constructor and any
    actions of the user, the window title is the document title and
    " - qtextpad" (with an n-dash), preceded by "* " exactly when the
    document is modified. *)
Theorem title_follows_document (actions : list UserAction) (w : World) :
  constructed (window w) ->
  let win := window (afterSession actions w) in
  windowTitle win =
    (if isDocumentModified win then "* " else "")
    ++ m_documentTitle win ++ " " ++ ndash ++ " qtextpad".
Proof.
  intros N. cbv zeta.
  rewrite (c_title _ (afterSession_consistent actions w N)).
  unfold titleOf. destruct (isDocumentModified _); reflexivity.
Qed.

(** X14. The status bar follows the document: after the constructor and any
    actions of the user, the line-ending label names the current mode, the
    encoding button shows the current encoding, marked invalid when no codec
    has that name, and the syntax button names the editor's syntax, "Plain
    Text" when there is none. *)
Theorem status_bar_follows_document (actions : list UserAction) (w : World) :
  constructed (window w) ->
  let win := window (afterSession actions w) in
  m_crlfLabel win =
    match m_lineEndingMode win with CROnly => "CR" | LFOnly => "LF" | CRLF => "CRLF" end /\
  m_encodingButton win =
    (if snd (codecForName (m_textEncoding win)) then m_textEncoding win
     else "Invalid (" ++ m_textEncoding win ++ ")") /\
  m_syntaxButton win =
    (if isValid (syntax (m_editor win)) then translatedName (syntax (m_editor win))
     else "Plain Text").
Proof.
  intros N. cbv zeta.
  destruct (afterSession_consistent actions w N). repeat split; assumption.
Qed.

Lemma find_string (name : string) (l : list string) :
  find (fun a => String.eqb a name) l =
    (if existsb (String.eqb name) l then Some name else None).
Proof.
  induction l as [|a l IH]; simpl; [reflexivity|].
  rewrite (String.eqb_sym name a).
  destruct (String.eqb_spec a name) as [->|]; simpl; [reflexivity | exact IH].
Qed.

Lemma KDefinition_eqb_eq (a b : KDefinition) :
  KDefinition_eqb a b = true <-> a = b.
Proof.
  destruct a as [|n], b as [|m]; simpl; split; try congruence.
  - intros E. apply String.eqb_eq in E. congruence.
  - intros E. injection E as ->. apply String.eqb_refl.
Qed.

Lemma find_definition (d : KDefinition) (l : list KDefinition) :
  existsb (KDefinition_eqb d) l = true ->
  find (fun a => KDefinition_eqb a d) l = Some d.
Proof.
  induction l as [|a l IH]; simpl; [discriminate|].
  destruct (KDefinition_eqb a d) eqn:E.
  - intros _. apply KDefinition_eqb_eq in E. congruence.
  - destruct (KDefinition_eqb d a) eqn:E'.
    + apply KDefinition_eqb_eq in E'. subst a.
      assert (KDefinition_eqb d d = true) by (apply KDefinition_eqb_eq; reflexivity).
      congruence.
    + exact IH.
Qed.

(** X15. The check marks of the menus follow the document: after the
    constructor and any actions of the user, the checked line-ending action
    is the current mode; the checked encoding action is the one that has the
    current encoding, none when no action has it; and when an action has the
    editor's syntax, it is the checked one. *)
Theorem menus_follow_document (actions : list UserAction) (w : World) :
  constructed (window w) ->
  let win := window (afterSession actions w) in
  m_lineEndingActions win = Some (m_lineEndingMode win) /\
  m_encodingActions win =
    (if existsb (String.eqb (m_textEncoding win)) encodingActions
     then Some (m_textEncoding win) else None) /\
  (existsb (KDefinition_eqb (syntax (m_editor win))) syntaxActions = true ->
   m_syntaxActions win = Some (syntax (m_editor win))).
Proof.
  intros N. cbv zeta.
  destruct (afterSession_consistent actions w N).
  split; [assumption|]. split.
  - rewrite <- find_string. assumption.
  - intros E. apply c_syntaxActions0, find_definition, E.
Qed.

(** X16. The document title follows the file name: after the constructor
    and any actions of the user, it is "Untitled" when the document has no
    file name and the last component of the file name otherwise. *)
Theorem document_title_follows_file_name (actions : list UserAction) (w : World) :
  constructed (window w) ->
  let win := window (afterSession actions w) in
  m_documentTitle win =
    (if isEmpty (m_openFilename win) then "Untitled"
     else fileName (m_openFilename win)).
Proof.
  intros N. cbv zeta. apply (c_documentTitle _ (afterSession_consistent actions w N)).
Qed.

(** X17. The history of a document without a file name holds text edits
    only: after the constructor and any actions of the user, when the
    document has no file name, no command of the undo stack is an encoding or
    line-ending change, so Undo and Redo never touch the encoding or the line
    endings of such a document. *)
Theorem untitled_history_is_text_only (actions : list UserAction) (w : World) :
  constructed (window w) ->
  let w' := afterSession actions w in
  let win := window w' in
  m_openFilename win = "" ->
  forallb isTextCommand (command_list (m_undoStack win)) = true /\
  (index (m_undoStack win) <= length (command_list (m_undoStack win)))%nat /\
  m_textEncoding (window (snd (QUndoStack_undo w'))) = m_textEncoding win /\
  m_lineEndingMode (window (snd (QUndoStack_undo w'))) = m_lineEndingMode win /\
  m_textEncoding (window (snd (QUndoStack_redo w'))) = m_textEncoding win /\
  m_lineEndingMode (window (snd (QUndoStack_redo w'))) = m_lineEndingMode win.
Proof.
  intros N. cbv zeta. intros E.
  rewrite (updates_window _ _ _ _ QUndoStack_undo_updates).
  rewrite (updates_window _ _ _ _ QUndoStack_redo_updates).
  pose proof (afterSession_consistent actions w N) as C.
  pose proof (c_silent _ C E) as T. pose proof (c_stack _ C) as OK.
  split; [exact T|]. split; [exact OK|].
  rewrite forallb_forall in T.
  assert (U : forall i cmd,
    nth_error (command_list (m_undoStack (window (afterSession actions w)))) i
      = Some cmd -> cmd = TextEditorUndoCommand).
  { intros i cmd NE. apply nth_error_In, T in NE. destruct cmd; try discriminate.
    reflexivity. }
  unfold QUndoStack_undo_window, QUndoStack_redo_window. cbv zeta.
  repeat split.
  - destruct (index _) as [|i]; [reflexivity|].
    destruct (nth_error _ i) as [cmd|] eqn:NE; [|reflexivity].
    rewrite (U _ _ NE). reflexivity.
  - destruct (index _) as [|i]; [reflexivity|].
    destruct (nth_error _ i) as [cmd|] eqn:NE; [|reflexivity].
    rewrite (U _ _ NE). reflexivity.
  - destruct (nth_error _ _) as [cmd|] eqn:NE; [|reflexivity].
    rewrite (U _ _ NE). reflexivity.
  - destruct (nth_error _ _) as [cmd|] eqn:NE; [|reflexivity].
    rewrite (U _ _ NE). reflexivity.
Qed.

(** X18. Reload is only on offer for a document with a file name: after the
    constructor and any actions of the user, when the Reload action is
    enabled the file name is not empty, so [reloadDocument] is never called
    on a document without a file. *)
Theorem reload_needs_file_name (actions : list UserAction) (w : World) :
  constructed (window w) ->
  m_reloadAction (window (afterSession actions w)) = true ->
  m_openFilename (window (afterSession actions w)) <> "".
Proof.
  intros N. apply (c_reload _ (afterSession_consistent actions w N)).
Qed.

(** *** The decode loop *)

Lemma append_empty (s : string) : s ++ "" = s.
Proof. induction s as [|c s IH]; simpl; [reflexivity | rewrite IH; reflexivity]. Qed.

Lemma concat_pieces (piece : string) (pieces : list string) :
  String.concat "" (piece :: pieces) = piece ++ String.concat "" pieces.
Proof.
  destruct pieces; simpl; [rewrite append_empty; reflexivity | reflexivity].
Qed.

(** X19. Decoding in blocks loses nothing: when the decoder of the codec
    keeps no state between blocks and decodes a concatenation as the
    concatenation of the decodings, the pieces of the decode loop, joined in
    order, are the decoding of all the bytes after the byte-order mark. *)
Theorem decodeBlocks_joins_to_whole
    (decode : list byte -> string) (decoder : QTextDecoder) (rest : list byte) :
  decode [] = "" ->
  (forall a b : list byte, decode (a ++ b)%list = decode a ++ decode b) ->
  (forall d buffer, fst (toUnicode d buffer) = decode buffer) ->
  String.concat "" (decodeBlocks decoder rest) = decode rest.
Proof.
  intros D0 Dapp Dfst. unfold decodeBlocks.
  assert (G : forall fuel d bytes, (length bytes < fuel)%nat ->
              String.concat "" (decodeLoop fuel d bytes) = decode bytes).
  { induction fuel as [|fuel IH]; intros d bytes L; [inversion L|].
    cbn [decodeLoop].
    destruct (Nat.eqb (length (firstn DECODE_BLOCK_SIZE bytes)) 0) eqn:E.
    - apply Nat.eqb_eq in E. pose proof DECODE_BLOCK_SIZE_positive as P.
      destruct bytes as [|b bytes]; [simpl; symmetry; exact D0|].
      exfalso. rewrite length_firstn in E. cbn [length] in E. lia.
    - pose proof (Dfst d (firstn DECODE_BLOCK_SIZE bytes)) as F.
      destruct (toUnicode d (firstn DECODE_BLOCK_SIZE bytes)) as [piece d'].
      cbn [fst] in F. rewrite concat_pieces, F, IH.
      + rewrite <- Dapp, firstn_skipn. reflexivity.
      + rewrite length_skipn.
        assert (length bytes <> 0)%nat.
        { intros Z. apply length_zero_iff_nil in Z. subst bytes.
          rewrite firstn_nil in E. discriminate. }
        pose proof DECODE_BLOCK_SIZE_positive. lia. }
  apply G. lia.
Qed.

(** X20. The decode loop reads the file block by block: the number of
    pieces is the number of bytes divided by the block size, rounded up. *)
Theorem decodeBlocks_number_of_pieces (decoder : QTextDecoder) (rest : list byte) :
  length (decodeBlocks decoder rest) =
    ((length rest + DECODE_BLOCK_SIZE - 1) / DECODE_BLOCK_SIZE)%nat.
Proof.
  unfold decodeBlocks.
  pose proof DECODE_BLOCK_SIZE_positive as P.
  assert (G : forall fuel d bytes, (length bytes < fuel)%nat ->
              length (decodeLoop fuel d bytes) =
                ((length bytes + DECODE_BLOCK_SIZE - 1) / DECODE_BLOCK_SIZE)%nat).
  { induction fuel as [|fuel IH]; intros d bytes L; [inversion L|].
    cbn [decodeLoop]. rewrite length_firstn.
    generalize dependent DECODE_BLOCK_SIZE. intros n P IH.
    destruct (Nat.eqb (Nat.min n (length bytes)) 0) eqn:E.
    - apply Nat.eqb_eq in E. assert (length bytes = 0)%nat as -> by lia.
      simpl. symmetry. apply Nat.div_small. lia.
    - apply Nat.eqb_neq in E.
      destruct (toUnicode d (firstn n bytes)) as [piece d'].
      cbn [length]. rewrite IH by (rewrite length_skipn; lia).
      rewrite length_skipn.
      destruct (Nat.le_gt_cases n (length bytes)) as [GE | LT].
      + replace (length bytes + n - 1)%nat
          with ((length bytes - n + n - 1) + 1 * n)%nat by lia.
        rewrite Nat.div_add by lia. lia.
      + replace (length bytes - n)%nat with 0%nat by lia.
        replace (0 + n - 1)%nat with (n - 1)%nat by lia.
        rewrite (Nat.div_small (n - 1) n) by lia.
        assert ((length bytes + n - 1) / n = 1)%nat; [|lia].
        replace (length bytes + n - 1)%nat
          with ((length bytes - 1) + 1 * n)%nat by lia.
        rewrite Nat.div_add by lia. rewrite Nat.div_small by lia. reflexivity. }
  apply G. lia.
Qed.

End MoreProperties.

(** ** The status bar beside the document *)

(** X21. [updateIndentStatus] checks exactly one action in each width
    group: the one whose data is the width when the width is 8, 4 or 2, and
    "Other..." for every other width.  It checks the action of the
    indentation mode; for a mode that is none of the three the button says
    INVALID and the check mark of the mode is left where it was.  Calling it
    again changes nothing. *)
Theorem updateIndentStatus_checks (editor : IndentSettings) (ws : IndentWidgets) :
  let ws' := updateIndentStatus editor ws in
  let known width := (width =? 8) || (width =? 4) || (width =? 2) in
  m_tabWidthActions ws' =
    Some (if known (tabWidth editor) then Some (tabWidth editor) else None) /\
  m_indentWidthActions ws' =
    Some (if known (indentWidth editor) then Some (indentWidth editor) else None) /\
  m_indentModeActions ws' =
    match indentationMode editor with
    | IndentOther => m_indentModeActions ws
    | mode => Some mode
    end /\
  (m_indentButton ws' = "INVALID" <-> indentationMode editor = IndentOther) /\
  updateIndentStatus editor ws' = ws'.
Proof.
  cbv zeta.
  assert (W : forall width checked,
    checkWidthAction width checked =
      Some (if (width =? 8) || (width =? 4) || (width =? 2)
            then Some width else None)).
  { intros width checked. unfold checkWidthAction, widthActions. cbn [fold_left].
    destruct (Z.eqb_spec width 8) as [->|]; [reflexivity|].
    destruct (Z.eqb_spec width 4) as [->|]; [reflexivity|].
    destruct (Z.eqb_spec width 2) as [->|]; reflexivity. }
  unfold updateIndentStatus. cbv zeta.
  cbn [m_tabWidthActions m_indentWidthActions m_indentModeActions m_indentButton].
  rewrite !W.
  split; [reflexivity|]. split; [reflexivity|]. split; [|split].
  - destruct (indentationMode editor); reflexivity.
  - destruct (indentationMode editor); simpl;
      try destruct (negb (tabWidth editor =? indentWidth editor));
      split; intros E; try discriminate E; reflexivity.
  - f_equal. destruct (indentationMode editor); reflexivity.
Qed.

(** X22. The insert label, the Overwrite Mode action and the editor agree
    after [setOverwriteMode], whatever they were, and one round of the
    [toggled] signal is all it takes.  From then on a click on the label and
    a click on the menu action do the same, and two clicks bring the window
    back. *)
Theorem insert_mode_in_step (overwrite : bool) (s : InsertWidgets) :
  let s' := setOverwriteMode overwrite s in
  s' = {| overwriteMode := overwrite; m_overwriteModeAction := overwrite;
          m_insertLabel := if overwrite then "OVR" else "INS" |} /\
  (forall fuel, setOverwriteMode_fuel (S fuel) overwrite s = s') /\
  toggleOverwriteModeAction s' = nextInsertMode s' /\
  overwriteMode (nextInsertMode s') = negb overwrite /\
  nextInsertMode (nextInsertMode s') = s'.
Proof.
  cbv zeta.
  assert (F : forall fuel o t,
    setOverwriteMode_fuel (S fuel) o t =
      {| overwriteMode := o; m_overwriteModeAction := o;
         m_insertLabel := if o then "OVR" else "INS" |}).
  { intros fuel o [e a l]. cbn [setOverwriteMode_fuel overwriteMode
      m_overwriteModeAction m_insertLabel].
    destruct (Bool.eqb a o) eqn:E.
    - apply Bool.eqb_prop in E. subst a. reflexivity.
    - destruct fuel; cbn [setOverwriteMode_fuel overwriteMode
        m_overwriteModeAction m_insertLabel];
        rewrite Bool.eqb_reflx; reflexivity. }
  unfold setOverwriteMode, nextInsertMode, toggleOverwriteModeAction,
    setOverwriteMode.
  rewrite !F. cbn [overwriteMode m_overwriteModeAction m_insertLabel].
  rewrite ?F. cbn [overwriteMode]. rewrite ?Bool.negb_involutive.
  repeat split. intros fuel. apply F.
Qed.

(** * The window at work

    The theorems above at the worlds of [Fixture], and the two places where
    the code and the specification part. *)

#[local] Existing Instance Fixture.collaborators.

(** The files of the fixture have the size they say. *)
Lemma fixture_file_sizes (f : QFileData) :
  In f [Fixture.notes; Fixture.report; Fixture.makefile; Fixture.edge; Fixture.over] ->
  file_size f = Z.of_nat (length (file_data f)).
Proof.
  intros [<- | [<- | [<- | [<- | [<- | []]]]]].
  - reflexivity.
  - reflexivity.
  - reflexivity.
  - unfold Fixture.edge. cbn [file_size file_data].
    rewrite repeat_length, Z2Nat.id; [reflexivity | lia].
  - unfold Fixture.over. cbn [file_size file_data].
    rewrite repeat_length, Z2Nat.id; [reflexivity | lia].
Qed.

(** C1 on a new document and on an opened one. *)
Lemma changeEncoding_changeLineEndingMode_history_witness :
  (m_openFilename (window Fixture.untitled) = "" /\
   changeEncoding "ISO-8859-1" Fixture.untitled
     = setEncoding "ISO-8859-1" Fixture.untitled /\
   m_undoStack (window (snd (changeLineEndingMode CRLF Fixture.untitled)))
     = m_undoStack (window Fixture.untitled)) /\
  (m_openFilename (window Fixture.opened) = "/home/u/notes.txt" /\
   pushes (events_since Fixture.opened (snd (changeEncoding "UTF-8" Fixture.opened)))
     = [ChangeEncodingCommand "ISO-8859-1" "UTF-8"] /\
   m_textEncoding (window (snd (changeEncoding "UTF-8" Fixture.opened))) = "UTF-8").
Proof.
  split.
  - pose proof (changeEncoding_changeLineEndingMode_history
                  Fixture.untitled "ISO-8859-1" CRLF) as P.
    cbv zeta in P.
    change (isEmpty (m_openFilename (window Fixture.untitled))) with true in P.
    cbv iota in P.
    destruct P as (P1 & _ & _ & _ & _ & _ & _ & P8).
    split; [vm_compute; reflexivity|]. split; [exact P1 | exact P8].
  - pose proof (changeEncoding_changeLineEndingMode_history
                  Fixture.opened "UTF-8" CRLF) as P.
    cbv zeta in P.
    change (isEmpty (m_openFilename (window Fixture.opened))) with false in P.
    cbv iota in P.
    destruct P as (P1 & _ & _ & _ & _ & _ & P7 & _).
    split; [vm_compute; reflexivity|]. split; [exact P1 | exact P7].
Defined.

(** C2 on the dirty document with its three commands. *)
Lemma loadDocumentFrom_resets_history_witness :
  length (command_list (m_undoStack (window Fixture.dirty))) = 3%nat /\
  isDocumentModified (window Fixture.dirty) = true /\
  fst (loadDocumentFrom "/home/u/Makefile" "" Fixture.dirty) = true /\
  command_list
    (m_undoStack (window (snd (loadDocumentFrom "/home/u/Makefile" "" Fixture.dirty))))
    = [] /\
  isDocumentModified
    (window (snd (loadDocumentFrom "/home/u/Makefile" "" Fixture.dirty))) = false.
Proof.
  split; [vm_compute; reflexivity|]. split; [vm_compute; reflexivity|].
  assert (S : fst (loadDocumentFrom "/home/u/Makefile" "" Fixture.dirty) = true)
    by (vm_compute; reflexivity).
  split; [exact S|].
  destruct (loadDocumentFrom_resets_history Fixture.dirty "/home/u/Makefile" "" S)
    as (L & _ & M & _).
  split; [exact L | exact M].
Defined.

(** C3 with an encoding that is known, and with one that is not. *)
Lemma loadDocumentFrom_effective_codec_witness :
  m_textEncoding
    (window (snd (loadDocumentFrom "/home/u/notes.txt" "UTF-8" Fixture.untitled)))
    = "UTF-8" /\
  m_textEncoding
    (window (snd (loadDocumentFrom "/home/u/notes.txt" "KOI-99" Fixture.untitled)))
    = "ISO-8859-1".
Proof.
  split.
  - assert (F : files Fixture.untitled "/home/u/notes.txt" = Some Fixture.notes)
      by (vm_compute; reflexivity).
    assert (S : fst (loadDocumentFrom "/home/u/notes.txt" "UTF-8" Fixture.untitled)
                = true) by (vm_compute; reflexivity).
    destruct (loadDocumentFrom_effective_codec _ _ _ _ F S) as [known _].
    assert (N : "UTF-8" <> "") by discriminate.
    assert (K : snd (codecForName "UTF-8") = true) by reflexivity.
    exact (proj1 (proj2 (known N K))).
  - assert (F : files Fixture.untitled "/home/u/notes.txt" = Some Fixture.notes)
      by (vm_compute; reflexivity).
    assert (S : fst (loadDocumentFrom "/home/u/notes.txt" "KOI-99" Fixture.untitled)
                = true) by (vm_compute; reflexivity).
    destruct (loadDocumentFrom_effective_codec _ _ _ _ F S) as [_ unknown].
    assert (K : "KOI-99" = "" \/ snd (codecForName "KOI-99") = false)
      by (right; reflexivity).
    exact (proj1 (proj2 (unknown K))).
Defined.

(** C4 at the threshold, one byte above it, and with a user who declines. *)
Lemma loadDocumentFrom_large_file_gate_witness :
  dialogs (events_since Fixture.untitled
             (snd (loadDocumentFrom "/home/u/edge.bin" "" Fixture.untitled))) = [] /\
  dialogs (events_since Fixture.untitled
             (snd (loadDocumentFrom "/home/u/over.bin" "" Fixture.untitled)))
    = [MessageBox_question largeFileWarning [Yes; No]] /\
  fst (loadDocumentFrom "/home/u/over.bin" "" Fixture.refusing) = false /\
  window (snd (loadDocumentFrom "/home/u/over.bin" "" Fixture.refusing))
    = window Fixture.refusing.
Proof.
  assert (E : files Fixture.untitled "/home/u/edge.bin" = Some Fixture.edge)
    by reflexivity.
  assert (O : files Fixture.untitled "/home/u/over.bin" = Some Fixture.over)
    by reflexivity.
  assert (R : files Fixture.refusing "/home/u/over.bin" = Some Fixture.over)
    by reflexivity.
  split; [|split].
  - destruct (loadDocumentFrom_large_file_gate _ _ "" _ E) as (_ & _ & at_edge & _).
    apply at_edge. reflexivity.
  - destruct (loadDocumentFrom_large_file_gate _ _ "" _ O) as (_ & _ & _ & above & _).
    apply above. reflexivity.
  - destruct (loadDocumentFrom_large_file_gate _ _ "" _ R) as (_ & _ & _ & _ & declined).
    assert (L : LARGE_FILE_SIZE < file_size Fixture.over) by reflexivity.
    assert (A : nextAnswer [Yes; No] Fixture.refusing = No) by reflexivity.
    destruct (declined L A) as (D1 & D2 & _). split; [exact D1 | exact D2].
Defined.

(** C5 as the specification has it fails when notes.txt is opened:
    [setEncoding] is not called before [setLineEndingMode]. *)
Lemma loadDocumentFrom_setEncoding_is_second :
  fst Fixture.opening = true /\
  events_since Fixture.untitled (snd Fixture.opening) =
    [Call_setLineEndingMode LFOnly; Call_setEncoding "ISO-8859-1";
     Editor_clear; Call_setSyntax InvalidDefinition;
     Editor_setPlainText "old text"; Document_clearUndoRedoStacks;
     Lookup_definitionForFileMagic "/home/u/notes.txt";
     Lookup_definitionForFileName "/home/u/notes.txt";
     UndoStack_clear; UndoStack_setClean] /\
  happensBefore isCall_setEncoding isCall_setLineEndingMode
    (events_since Fixture.untitled (snd Fixture.opening)) = false.
Proof. vm_compute. repeat split. Qed.

(** C5 as the code has it, when notes.txt is opened. *)
Lemma loadDocumentFrom_setter_order_witness :
  filter isSetterCall
    (events_since Fixture.untitled
       (snd (loadDocumentFrom "/home/u/notes.txt" "" Fixture.untitled)))
  = [Call_setLineEndingMode LFOnly; Call_setEncoding "ISO-8859-1"].
Proof.
  assert (F : files Fixture.untitled "/home/u/notes.txt" = Some Fixture.notes)
    by (vm_compute; reflexivity).
  assert (S : fst (loadDocumentFrom "/home/u/notes.txt" "" Fixture.untitled) = true)
    by (vm_compute; reflexivity).
  exact (proj1 (loadDocumentFrom_setter_order _ _ _ _ F S)).
Defined.

(** C6 on report.txt, which starts like a shell script, and on Makefile,
    which only its name gives away. *)
Lemma loadDocumentFrom_syntax_precedence_witness :
  syntax (m_editor
            (window (snd (loadDocumentFrom "/home/u/report.txt" "" Fixture.untitled))))
    = SyntaxDefinition "Bash" /\
  syntax (m_editor
            (window (snd (loadDocumentFrom "/home/u/Makefile" "" Fixture.untitled))))
    = SyntaxDefinition "Makefile".
Proof.
  split.
  - assert (S : fst (loadDocumentFrom "/home/u/report.txt" "" Fixture.untitled) = true)
      by (vm_compute; reflexivity).
    exact (proj1 (loadDocumentFrom_syntax_precedence _ _ _ S)).
  - assert (S : fst (loadDocumentFrom "/home/u/Makefile" "" Fixture.untitled) = true)
      by (vm_compute; reflexivity).
    exact (proj1 (loadDocumentFrom_syntax_precedence _ _ _ S)).
Defined.

(** C8 fails on the code.  The user has typed "new text" into a new
    document.  Saving it to notes.txt returns [true] and leaves the file
    as it was, so loading the file brings "old text" and another encoding;
    saving it to a path that does not exist creates no file, so loading
    that fails. *)
Theorem saveDocumentTo_loadDocumentFrom_no_round_trip :
  plainText (m_editor (window Fixture.typed)) = "new text" /\
  m_textEncoding (window Fixture.typed) = "UTF-8" /\
  fst (saveDocumentTo "/home/u/notes.txt" Fixture.typed) = true /\
  files (snd (saveDocumentTo "/home/u/notes.txt" Fixture.typed)) "/home/u/notes.txt"
    = Some Fixture.notes /\
  fst (loadDocumentFrom "/home/u/notes.txt" ""
         (snd (saveDocumentTo "/home/u/notes.txt" Fixture.typed))) = true /\
  plainText
    (m_editor
       (window
          (snd (loadDocumentFrom "/home/u/notes.txt" ""
                  (snd (saveDocumentTo "/home/u/notes.txt" Fixture.typed))))))
    = "old text" /\
  m_textEncoding
    (window
       (snd (loadDocumentFrom "/home/u/notes.txt" ""
               (snd (saveDocumentTo "/home/u/notes.txt" Fixture.typed)))))
    = "ISO-8859-1" /\
  fst (saveDocumentTo "/home/u/draft.txt" Fixture.typed) = true /\
  files (snd (saveDocumentTo "/home/u/draft.txt" Fixture.typed)) "/home/u/draft.txt"
    = None /\
  fst (loadDocumentFrom "/home/u/draft.txt" ""
         (snd (saveDocumentTo "/home/u/draft.txt" Fixture.typed))) = false.
Proof. vm_compute. repeat split. Qed.

(** C9 on the document the user has typed into: one edit could be undone
    in the buffer before the save, none after. *)
Lemma save_clears_document_undo_witness :
  documentUndo (m_editor (window Fixture.typedWithPath)) = [("", "new text")] /\
  (fst (saveDocument Fixture.typedWithPath) = true /\
   m_openFilename (window (snd (saveDocument Fixture.typedWithPath)))
     = "/home/u/draft.txt" /\
   documentUndo (m_editor (window (snd (saveDocument Fixture.typedWithPath)))) = []) /\
  (fst (saveDocumentAs Fixture.typedWithPath) = true /\
   documentUndo (m_editor (window (snd (saveDocumentAs Fixture.typedWithPath)))) = []).
Proof.
  split; [vm_compute; reflexivity|].
  destruct (save_clears_document_undo Fixture.typedWithPath) as [plain as_].
  split.
  - assert (S : fst (saveDocument Fixture.typedWithPath) = true)
      by (vm_compute; reflexivity).
    destruct (plain S) as (_ & P & _ & _ & _ & U & _).
    split; [exact S|]. split; [exact P | exact U].
  - assert (S : fst (saveDocumentAs Fixture.typedWithPath) = true)
      by (vm_compute; reflexivity).
    destruct (as_ S) as (_ & _ & _ & _ & _ & U & _).
    split; [exact S | exact U].
Defined.

(** C10 on the new document. *)
Lemma promptForSave_clean_proceeds_witness :
  isDocumentModified (window Fixture.untitled) = false /\
  promptForSave Fixture.untitled = (true, Fixture.untitled) /\
  closeEvent Fixture.untitled
    = (true, set_trace (trace Fixture.untitled ++ [Settings_setWindowSize])
               Fixture.untitled).
Proof.
  assert (C : isDocumentModified (window Fixture.untitled) = false)
    by (vm_compute; reflexivity).
  split; [exact C|].
  destruct (promptForSave_clean_proceeds Fixture.untitled C) as (P & _ & Q).
  split; [exact P | exact Q].
Defined.

(** ** The rest of the window at work *)

(** X1 on a file that is not on the disk. *)
Lemma loadDocumentFrom_cannot_open_witness :
  fst (loadDocumentFrom "/home/u/missing.txt" "" Fixture.dirty) = false /\
  window (snd (loadDocumentFrom "/home/u/missing.txt" "" Fixture.dirty))
    = window Fixture.dirty.
Proof.
  assert (F : files Fixture.dirty "/home/u/missing.txt" = None) by reflexivity.
  destruct (loadDocumentFrom_cannot_open Fixture.dirty "/home/u/missing.txt" "" F)
    as (R & W & _).
  split; [rewrite R; reflexivity | exact W].
Defined.

(** X2: Makefile loaded into the new window and into the dirty one. *)
Lemma loadDocumentFrom_replaces_window_witness :
  window (snd (loadDocumentFrom "/home/u/Makefile" "" Fixture.untitled)) =
  window (snd (loadDocumentFrom "/home/u/Makefile" "" Fixture.dirty)).
Proof.
  apply loadDocumentFrom_replaces_window.
  - reflexivity.
  - vm_compute. lia.
  - vm_compute. lia.
  - vm_compute. reflexivity.
  - vm_compute. reflexivity.
Defined.

(** X3: New on the new window and on notes.txt. *)
Lemma newDocument_replaces_window_witness :
  window (snd (newDocument Fixture.untitled)) = window (snd (newDocument Fixture.opened)).
Proof.
  apply newDocument_replaces_window.
  - vm_compute. lia.
  - vm_compute. lia.
  - vm_compute. reflexivity.
  - vm_compute. reflexivity.
Defined.

(** X8 with a user who answers No. *)
Lemma promptForSave_answers_witness :
  isDocumentModified (window (Scenario.answering No)) = true /\
  fst (promptForSave (Scenario.answering No)) = true /\
  window (snd (promptForSave (Scenario.answering No))) = window (Scenario.answering No).
Proof.
  assert (M : isDocumentModified (window (Scenario.answering No)) = true)
    by (vm_compute; reflexivity).
  split; [exact M|].
  destruct (promptForSave_answers (Scenario.answering No) M) as (_ & _ & no & _).
  apply no. reflexivity.
Defined.

(** X9 with a user who dismisses the question. *)
Lemma cancelled_prompt_stops_witness :
  fst (promptForSave Fixture.typed) = false /\
  window (snd (newDocument Fixture.typed)) = window Fixture.typed /\
  window (snd (closeEvent Fixture.typed)) = window Fixture.typed.
Proof.
  assert (P : fst (promptForSave Fixture.typed) = false) by (vm_compute; reflexivity).
  split; [exact P|].
  destruct (cancelled_prompt_stops Fixture.typed P) as (_ & _ & N & C).
  split; [exact N | exact C].
Defined.

(** X12 on notes.txt. *)
Lemma undo_after_save_keeps_text_witness :
  plainText (m_editor (window Fixture.opened)) = "old text" /\
  plainText
    (m_editor
       (window (snd ((editText "new text" ;; saveDocument ;; QUndoStack_undo)%window
                       Fixture.opened)))) = "new text".
Proof.
  split; [vm_compute; reflexivity|].
  assert (OK : stack_ok (m_undoStack (window Fixture.opened)))
    by (vm_compute; lia).
  assert (NE : m_openFilename (window Fixture.opened) <> "")
    by (vm_compute; discriminate).
  exact (proj1 (undo_after_save_keeps_text Fixture.opened "new text" OK NE)).
Defined.

Lemma constructed_atStart : constructed (window Scenario.atStart).
Proof. vm_compute. reflexivity. Qed.

Lemma constructed_atDesk : constructed (window Scenario.atDesk).
Proof. vm_compute. reflexivity. Qed.

(** X13 to X16 after the morning at the window. *)
Lemma title_follows_document_witness :
  windowTitle (window (afterSession Scenario.morning Scenario.atStart)) =
    (if isDocumentModified (window (afterSession Scenario.morning Scenario.atStart))
     then "* " else "")
    ++ m_documentTitle (window (afterSession Scenario.morning Scenario.atStart))
    ++ " " ++ ndash ++ " qtextpad".
Proof.
  exact (title_follows_document Scenario.morning Scenario.atStart constructed_atStart).
Defined.

Lemma status_bar_follows_document_witness :
  m_encodingButton (window (afterSession Scenario.openNotes Scenario.atDesk)) =
    (if snd (codecForName
               (m_textEncoding (window (afterSession Scenario.openNotes Scenario.atDesk))))
     then m_textEncoding (window (afterSession Scenario.openNotes Scenario.atDesk))
     else "Invalid ("
          ++ m_textEncoding (window (afterSession Scenario.openNotes Scenario.atDesk))
          ++ ")").
Proof.
  exact (proj1 (proj2 (status_bar_follows_document Scenario.openNotes Scenario.atDesk
                         constructed_atDesk))).
Defined.

Lemma menus_follow_document_witness :
  m_lineEndingActions (window (afterSession Scenario.morning Scenario.atStart)) =
    Some (m_lineEndingMode (window (afterSession Scenario.morning Scenario.atStart))).
Proof.
  exact (proj1 (menus_follow_document Scenario.morning Scenario.atStart
                  constructed_atStart)).
Defined.

Lemma document_title_follows_file_name_witness :
  m_documentTitle (window (afterSession Scenario.openNotes Scenario.atDesk)) =
    (if isEmpty (m_openFilename (window (afterSession Scenario.openNotes Scenario.atDesk)))
     then "Untitled"
     else fileName
            (m_openFilename (window (afterSession Scenario.openNotes Scenario.atDesk)))).
Proof.
  exact (document_title_follows_file_name Scenario.openNotes Scenario.atDesk
           constructed_atDesk).
Defined.

(** X17 after the morning, which ends on a new document. *)
Lemma untitled_history_is_text_only_witness :
  forallb isTextCommand
    (command_list
       (m_undoStack (window (afterSession Scenario.morning Scenario.atStart)))) = true.
Proof.
  assert (E : m_openFilename (window (afterSession Scenario.morning Scenario.atStart))
              = "") by (vm_compute; reflexivity).
  exact (proj1 (untitled_history_is_text_only Scenario.morning Scenario.atStart
                  constructed_atStart E)).
Defined.

(** X18 after notes.txt has been opened. *)
Lemma reload_needs_file_name_witness :
  m_openFilename (window (afterSession Scenario.openNotes Scenario.atDesk)) <> "".
Proof.
  assert (R : m_reloadAction (window (afterSession Scenario.openNotes Scenario.atDesk))
              = true) by (vm_compute; reflexivity).
  exact (reload_needs_file_name Scenario.openNotes Scenario.atDesk
           constructed_atDesk R).
Defined.

Lemma string_of_list_byte_app (a b : list byte) :
  string_of_list_byte (a ++ b) = string_of_list_byte a ++ string_of_list_byte b.
Proof.
  unfold string_of_list_byte in *.
  induction a as [|x a IH]; simpl; [reflexivity | rewrite IH; reflexivity].
Qed.

(** X19 with the decoder of the fixture. *)
Lemma decodeBlocks_joins_to_whole_witness :
  String.concat "" (decodeBlocks tt (list_byte_of_string "old text")) =
  string_of_list_byte (list_byte_of_string "old text").
Proof.
  apply (decodeBlocks_joins_to_whole string_of_list_byte).
  - reflexivity.
  - exact string_of_list_byte_app.
  - intros d buffer. reflexivity.
Defined.
